(** * A shallow embedding of the coordination core of the Synapse charm
    ([src/charm.py], class [SynapseCharm]).

    Strings are Stdlib [string]s; Python dicts that keep insertion order
    are association lists; a hook runs in a state-and-exception monad
    over an explicit [World] (peer relation data bag, secrets, workload
    container, unit status and a log of observable effects).  *)

From Stdlib Require Import String Ascii List Bool Arith Lia ZArith.
Import ListNotations.
Open Scope string_scope.

(* ------------------------------------------------------------------ *)
(** ** Python string operations used by the charm *)

Definition is_digit (c : ascii) : bool :=
  let n := nat_of_ascii c in Nat.leb 48 n && Nat.leb n 57.

Fixpoint has_digit (s : string) : bool :=
  match s with
  | EmptyString => false
  | String c r => is_digit c || has_digit r
  end.

Fixpoint all_digits (s : string) : bool :=
  match s with
  | EmptyString => true
  | String c r => is_digit c && all_digits r
  end.

Fixpoint has_char (a : ascii) (s : string) : bool :=
  match s with
  | EmptyString => false
  | String c r => Ascii.eqb c a || has_char a r
  end.

(** [s.replace(a, b)] for one-character [a] and [b]. *)
Fixpoint replace_char (a b : ascii) (s : string) : string :=
  match s with
  | EmptyString => EmptyString
  | String c r => String (if Ascii.eqb c a then b else c) (replace_char a b r)
  end.

(** [s.split(c)[0]]: the part of [s] before the first [c]. *)
Fixpoint split_first (a : ascii) (s : string) : string :=
  match s with
  | EmptyString => EmptyString
  | String c r => if Ascii.eqb c a then EmptyString else String c (split_first a r)
  end.

(** [s.rfind(c)]: index of the last [c] in [s], or [-1]. *)
Fixpoint rfind_aux (a : ascii) (s : string) (i : Z) (acc : Z) : Z :=
  match s with
  | EmptyString => acc
  | String c r => rfind_aux a r (i + 1) (if Ascii.eqb c a then i else acc)
  end.

Definition rfind (a : ascii) (s : string) : Z := rfind_aux a s 0 (-1).

(** [s[n:]] for [n >= 0]. *)
Fixpoint str_drop (n : nat) (s : string) : string :=
  match n, s with
  | O, _ => s
  | S _, EmptyString => EmptyString
  | S n', String _ r => str_drop n' r
  end.

(** Python slicing [s[begin:]] with an integer index (only [begin >= 0]
    occurs below). *)
Definition slice_from (begin : Z) (s : string) : string :=
  str_drop (Z.to_nat begin) s.

Fixpoint take_digits (s : string) : string :=
  match s with
  | String c r => if is_digit c then String c (take_digits r) else EmptyString
  | EmptyString => EmptyString
  end.

(** [re.search(r"-(\d+)", s)]: [Some (match.group(1))] for the leftmost
    match, [None] when there is none. *)
Fixpoint search_dash_digits (s : string) : option string :=
  match s with
  | EmptyString => None
  | String c r =>
      let here :=
        if Ascii.eqb c "-"%char then
          match r with
          | String d _ => if is_digit d then Some (take_digits r) else None
          | EmptyString => None
          end
        else None in
      match here with
      | Some g => Some g
      | None => search_dash_digits r
      end
  end.

(** A natural number in decimal, for the ids of created secrets. *)
Fixpoint digits_of_nat_aux (fuel n : nat) (acc : string) : string :=
  match fuel with
  | O => acc
  | S f =>
      let d := String (ascii_of_nat (48 + n mod 10)) acc in
      if Nat.ltb n 10 then d else digits_of_nat_aux f (n / 10) d
  end.

Definition string_of_nat (n : nat) : string := digits_of_nat_aux (S n) n "".

(* ------------------------------------------------------------------ *)
(** ** Python dicts with insertion order *)

Record Host := mkHost { host : string; port : Z }.

Definition Dict (V : Type) := list (string * V).

(** [d[k] = v]: an existing key keeps its position, a new key goes last. *)
Fixpoint dict_set {V} (k : string) (v : V) (d : Dict V) : Dict V :=
  match d with
  | [] => [(k, v)]
  | (k', v') :: r =>
      if String.eqb k' k then (k, v) :: r else (k', v') :: dict_set k v r
  end.

Fixpoint dict_get {V} (k : string) (d : Dict V) : option V :=
  match d with
  | [] => None
  | (k', v') :: r => if String.eqb k' k then Some v' else dict_get k r
  end.

Fixpoint dict_del {V} (k : string) (d : Dict V) : Dict V :=
  match d with
  | [] => []
  | (k', v') :: r => if String.eqb k' k then dict_del k r else (k', v') :: dict_del k r
  end.

(* ------------------------------------------------------------------ *)
(** ** The world a hook runs in *)

Inductive Status :=
| Active
| Maintenance (msg : string)
| Blocked (msg : string).

(** The exceptions that can leave the methods modelled here. *)
Inductive Exn :=
| PebbleServiceError (msg : string)
| FileNotFoundError (path : string)
| AttributeError
| RelationDataAccessError
| SecretNotFoundError.

Definition str_exn (e : Exn) : string :=
  match e with
  | PebbleServiceError m => m
  | FileNotFoundError p => p
  | AttributeError => "AttributeError"
  | RelationDataAccessError => "RelationDataAccessError"
  | SecretNotFoundError => "SecretNotFoundError"
  end.

(** The parts of [CharmState] the coordination core reads. *)
Record CharmState := mkCharmState {
  server_name : string;
  instance_map_config : option (Dict Host) }.

(** Observable effects, in the order they happen. *)
Inductive Effect :=
| EStatus (s : Status)
| EPush (path content : string)
| EApply (cs : CharmState) (is_main : bool) (unit_number : string)
| ECreateSecret (id content : string)
| EAppDataSet (k v : string)
| EAppDataDel (k : string)
| ERestartNginx (main_address : string)
| EMatrixAuth (cs : CharmState).

(** The Synapse workload container, as seen through Pebble. *)
Record Container := mkContainer {
  c_can_connect : bool;
  c_files : Dict string;
  c_synapse : list bool;       (* running flags of the synapse services *)
  c_nginx : list bool;         (* running flags of the nginx services *)
  c_apply_error : option string (* error raised when applying the configuration *)
}.

(** The first peer relation: its units (other than this one) and the
    application data bag. *)
Record PeerRel := mkPeerRel {
  pr_units : list string;
  pr_app_data : Dict string }.

Record World := mkWorld {
  w_unit : string;                 (* self.unit.name *)
  w_app : string;                  (* self.app.name *)
  w_leader : bool;                 (* self.unit.is_leader() *)
  w_planned : nat;                 (* self.app.planned_units() *)
  w_peer : option PeerRel;         (* None: no peer relation yet *)
  w_secrets : Dict (option string); (* secret id -> "secret-signing-key" field *)
  w_next_secret : nat;
  w_container : Container;
  w_status : Status;
  w_log : list Effect }.

Definition with_peer (p : option PeerRel) (w : World) : World :=
  mkWorld (w_unit w) (w_app w) (w_leader w) (w_planned w) p (w_secrets w)
    (w_next_secret w) (w_container w) (w_status w) (w_log w).

Definition with_secrets (s : Dict (option string)) (n : nat) (w : World) : World :=
  mkWorld (w_unit w) (w_app w) (w_leader w) (w_planned w) (w_peer w) s n
    (w_container w) (w_status w) (w_log w).

Definition with_container (c : Container) (w : World) : World :=
  mkWorld (w_unit w) (w_app w) (w_leader w) (w_planned w) (w_peer w)
    (w_secrets w) (w_next_secret w) c (w_status w) (w_log w).

Definition with_status (s : Status) (w : World) : World :=
  mkWorld (w_unit w) (w_app w) (w_leader w) (w_planned w) (w_peer w)
    (w_secrets w) (w_next_secret w) (w_container w) s (w_log w).

Definition emit (e : Effect) (w : World) : World :=
  mkWorld (w_unit w) (w_app w) (w_leader w) (w_planned w) (w_peer w)
    (w_secrets w) (w_next_secret w) (w_container w) (w_status w) (w_log w ++ [e]).

(* ------------------------------------------------------------------ *)
(** ** State and exception monad *)

Inductive Exc (A : Type) :=
| Ok (a : A)
| Raise (e : Exn).
Arguments Ok {A} a.
Arguments Raise {A} e.

Definition M (A : Type) := World -> Exc A * World.

Definition ret {A} (a : A) : M A := fun w => (Ok a, w).
Definition raise {A} (e : Exn) : M A := fun w => (Raise e, w).
Definition bind {A B} (m : M A) (k : A -> M B) : M B :=
  fun w => match m w with
           | (Ok a, w') => k a w'
           | (Raise e, w') => (Raise e, w')
           end.
Definition gets {A} (f : World -> A) : M A := fun w => (Ok (f w), w).
Definition modify (f : World -> World) : M unit := fun w => (Ok tt, f w).

Notation "x <- c1 ;; c2" := (bind c1 (fun x => c2))
  (at level 61, c1 at next level, right associativity).
Notation "c1 ;; c2" := (bind c1 (fun _ : unit => c2))
  (at level 61, right associativity).

(** [try: m except (PebbleServiceError, FileNotFoundError) as exc: ...]:
    [inr exc] for a caught exception, other exceptions propagate. *)
Definition try_apply_errors {A} (m : M A) : M (Exn + A) :=
  fun w => match m w with
           | (Ok a, w') => (Ok (inr a), w')
           | (Raise (PebbleServiceError _ as e), w')
           | (Raise (FileNotFoundError _ as e), w') => (Ok (inl e), w')
           | (Raise e, w') => (Raise e, w')
           end.

(* ------------------------------------------------------------------ *)
(** ** Primitive operations of the ops framework *)

Definition MAIN_UNIT_ID := "main_unit_id".
Definition SECRET_SIGNING_ID := "secret-signing-id".

(** Writing to the application data bag: ops refuses it
    ([RelationDataAccessError]) on a unit that is not the leader; an
    empty value removes the key. *)
Definition app_data_set (k v : string) : M unit :=
  fun w =>
    match w_peer w with
    | None => (Ok tt, w)
    | Some p =>
        if negb (w_leader w) then (Raise RelationDataAccessError, w)
        else
          let d := if String.eqb v "" then dict_del k (pr_app_data p)
                   else dict_set k v (pr_app_data p) in
          (Ok tt, emit (EAppDataSet k v) (with_peer (Some (mkPeerRel (pr_units p) d)) w))
    end.

(** [del data[k]] on the application data bag, with the same check. *)
Definition app_data_del (k : string) : M unit :=
  fun w =>
    match w_peer w with
    | None => (Ok tt, w)
    | Some p =>
        if negb (w_leader w) then (Raise RelationDataAccessError, w)
        else (Ok tt, emit (EAppDataDel k)
                        (with_peer (Some (mkPeerRel (pr_units p) (dict_del k (pr_app_data p)))) w))
    end.

Definition set_status (s : Status) : M unit :=
  modify (fun w => emit (EStatus s) (with_status s w)).

Definition push (path content : string) : M unit :=
  modify (fun w =>
    let c := w_container w in
    emit (EPush path content)
      (with_container (mkContainer (c_can_connect c) (dict_set path content (c_files c))
                         (c_synapse c) (c_nginx c) (c_apply_error c)) w)).

Definition pull (path : string) : M string :=
  fun w => match dict_get path (c_files (w_container w)) with
           | Some s => (Ok s, w)
           | None => (Raise (FileNotFoundError path), w)
           end.

(** [self.app.add_secret({"secret-signing-key": content})]; returns its id. *)
Definition add_secret (content : string) : M string :=
  fun w =>
    let id := "secret:" ++ string_of_nat (w_next_secret w) in
    (Ok id, emit (ECreateSecret id content)
              (with_secrets ((id, Some content) :: w_secrets w) (S (w_next_secret w)) w)).

(** Modelled from the spec: [pebble.reconcile] (module [pebble], not among
    the sources) computes and applies the full desired configuration to
    the workload, or fails with a [PebbleServiceError]. *)
Definition pebble_reconcile (cs : CharmState) (is_main : bool) (unit_number : string) : M unit :=
  fun w => match c_apply_error (w_container w) with
           | Some m => (Raise (PebbleServiceError m), w)
           | None => (Ok tt, emit (EApply cs is_main unit_number) w)
           end.

(** Modelled from the spec: [pebble.restart_nginx] (module [pebble]) passes
    the main address to the companion proxy and restarts it. *)
Definition restart_nginx (main_address : string) : M unit :=
  modify (emit (ERestartNginx main_address)).

(** Modelled from the spec: [MatrixAuthObserver.update_matrix_auth_integration]
    (module [matrix_auth_observer]) publishes configuration data to the
    matrix-auth integration. *)
Definition update_matrix_auth_integration (cs : CharmState) : M unit :=
  modify (emit (EMatrixAuth cs)).

(* ------------------------------------------------------------------ *)
(** ** [SynapseCharm] *)

(** [get_main_unit] *)
Definition main_of (w : World) : option string :=
  match w_peer w with
  | None => None
  | Some p => dict_get MAIN_UNIT_ID (pr_app_data p)
  end.

Definition get_main_unit : M (option string) := gets main_of.

(** [is_main] *)
Definition is_main_w (w : World) : bool :=
  match main_of w with
  | Some m => String.eqb m (w_unit w)
  | None => false
  end.

Definition is_main : M bool := gets is_main_w.

(** [get_unit_number]; [self_name] is [self.unit.name]. *)
Definition get_unit_number (self_name unit_name : string) : string :=
  let unit_name := if String.eqb unit_name "" then self_name else unit_name in
  let unit_part := split_first "." unit_name in
  let index := rfind "/" unit_part in
  let index := if Z.eqb index (-1) then rfind "-" unit_part else index in
  let begin := (index + 1)%Z in
  slice_from begin unit_part.

(** [f"{name.replace('/', '-')}.{app_name}-endpoints"] *)
Definition unit_address (name app : string) : string :=
  replace_char "/" "-" name ++ "." ++ app ++ "-endpoints".

(** [get_main_unit_address] *)
Definition get_main_unit_address (w : World) : string :=
  let main_unit_name := match main_of w with
                        | None => w_unit w
                        | Some m => m
                        end in
  unit_address main_unit_name (w_app w).

(** The loop of [instance_map] over the addresses; [match.group(1)] on a
    failed search raises [AttributeError]. *)
Fixpoint add_workers (main_address : string) (addresses : list string)
    (im : Dict Host) : Exc (Dict Host) :=
  match addresses with
  | [] => Ok im
  | address :: rest =>
      if String.eqb address main_address then add_workers main_address rest im
      else match search_dash_digits address with
           | None => Raise AttributeError
           | Some unit_number =>
               add_workers main_address rest
                 (dict_set ("worker" ++ unit_number) (mkHost address 8034%Z) im)
           end
  end.

Definition peer_addresses (w : World) : list string :=
  unit_address (w_unit w) (w_app w)
    :: match w_peer w with
       | Some p => map (fun u => unit_address u (w_app w)) (pr_units p)
       | None => []
       end.

(** [instance_map]; [None] is the Python [None] (no instance map). *)
Definition instance_map (w : World) : Exc (option (Dict Host)) :=
  if Nat.eqb (w_planned w) 1 then Ok None
  else
    let addresses := peer_addresses w in
    let im := [("main", mkHost (get_main_unit_address w) 8035%Z);
               ("federationsender1", mkHost (get_main_unit_address w) 8034%Z)] in
    match add_workers (get_main_unit_address w) addresses im with
    | Ok d => Ok (Some d)
    | Raise e => Raise e
    end.

(** [set_main_unit] *)
Definition set_main_unit (unit_name : string) : M unit :=
  p <- gets w_peer;;
  match p with
  | None => ret tt
  | Some _ => app_data_set MAIN_UNIT_ID unit_name
  end.

(** [get_signing_key]: a reference whose secret cannot be fetched is
    deleted from the data bag. *)
Definition get_signing_key : M (option string) :=
  p <- gets w_peer;;
  match p with
  | None => ret None
  | Some r =>
      match dict_get SECRET_SIGNING_ID (pr_app_data r) with
      | Some secret_id =>
          if String.eqb secret_id "" then ret None
          else
            s <- gets w_secrets;;
            match dict_get secret_id s with
            | Some content => ret content
            | None => app_data_del SECRET_SIGNING_ID;; ret None
            end
      | None => ret None
      end
  end.

(** Python [signing_key == other] for an optional [other]. *)
Definition str_eq_opt (k : string) (o : option string) : bool :=
  match o with
  | Some s => String.eqb k s
  | None => false
  end.

(** [set_signing_key] *)
Definition set_signing_key (signing_key : string) : M unit :=
  p <- gets w_peer;;
  match p with
  | None => ret tt
  | Some _ =>
      cur <- get_signing_key;;
      if str_eq_opt signing_key cur then ret tt
      else
        l <- gets w_leader;;
        if l then (secret_id <- add_secret signing_key;;
                   app_data_set SECRET_SIGNING_ID secret_id)
        else ret tt
  end.

(** Python truthiness of an optional string. *)
Definition truthy (o : option string) : bool :=
  match o with
  | Some s => negb (String.eqb s "")
  | None => false
  end.

Definition is_space (c : ascii) : bool :=
  let n := nat_of_ascii c in
  Nat.eqb n 32 || (Nat.leb 9 n && Nat.leb n 13).

(** [str.rstrip()] *)
Fixpoint rstrip (s : string) : string :=
  match s with
  | EmptyString => EmptyString
  | String c r =>
      let r' := rstrip r in
      if String.eqb r' "" && is_space c then EmptyString else String c r'
  end.

Definition any_not_running (services : list bool) : bool :=
  existsb negb services.

(** [_set_unit_status] *)
Definition set_unit_status : M unit :=
  st <- gets w_status;;
  match st with
  | Blocked _ => ret tt
  | _ =>
      c <- gets w_container;;
      if negb (c_can_connect c) then set_status (Maintenance "Waiting for Synapse pebble")
      else if match c_synapse c with [] => true | _ => false end
              || any_not_running (c_synapse c)
      then set_status (Maintenance "Waiting for Synapse")
      else if match c_nginx c with [] => true | _ => false end
              || any_not_running (c_nginx c)
      then set_status (Maintenance "Waiting for NGINX")
      else set_status Active
  end.

Definition signing_key_path (cs : CharmState) : string :=
  "/data/" ++ server_name cs ++ ".signing.key".

(** [if signing_key_from_secret: container.push(signing_key_path, ...)]
    (lines 209-212). *)
Definition push_signing_key (path : string) (signing_key_from_secret : option string) : M unit :=
  match signing_key_from_secret with
  | Some k => if truthy signing_key_from_secret then push path k else ret tt
  | None => ret tt
  end.

(** The [try] block of [reconcile] after the secret has been read
    (lines 209-229). *)
Definition reconcile_body_after_key (cs : CharmState) (signing_key_from_secret : option string) : M unit :=
  let path := signing_key_path cs in
  push_signing_key path signing_key_from_secret;;
  im <- is_main;;
  u <- gets w_unit;;
  pebble_reconcile cs im (get_unit_number u "");;
  im2 <- is_main;;
  (if im2 && negb (truthy signing_key_from_secret)
   then (f <- pull path;; set_signing_key (rstrip f))
   else ret tt);;
  l <- gets w_leader;;
  if l then update_matrix_auth_integration cs else ret tt.

(** The [try] block of [reconcile]. *)
Definition reconcile_body (cs : CharmState) : M unit :=
  signing_key_from_secret <- get_signing_key;;
  reconcile_body_after_key cs signing_key_from_secret.

(** [reconcile], lines 197-199: a leader that finds no main unit
    recorded makes itself the main unit. *)
Definition bootstrap_main : M unit :=
  m <- get_main_unit;;
  l <- gets w_leader;;
  match m with
  | None => if l then (u <- gets w_unit;; set_main_unit u) else ret tt
  | Some _ => ret tt
  end.

(** [reconcile], lines 200-234. *)
Definition reconcile_workload (cs : CharmState) : M unit :=
  c <- gets w_container;;
  if negb (c_can_connect c) then set_status (Maintenance "Waiting for Synapse pebble")
  else
    set_status (Maintenance "Configuring Synapse");;
    r <- try_apply_errors (reconcile_body cs);;
    match r with
    | inl exc => set_status (Blocked (str_exn exc))
    | inr _ =>
        a <- gets get_main_unit_address;;
        restart_nginx a;;
        set_unit_status
    end.

(** [reconcile] *)
Definition reconcile (cs : CharmState) : M unit :=
  bootstrap_main;;
  reconcile_workload cs.

(** [_on_relation_departed], after [charm_state] has been built;
    [departing_unit] is the name of [event.departing_unit]. *)
Definition on_relation_departed (cs : CharmState) (departing_unit : option string) : M unit :=
  u <- gets w_unit;;
  if match departing_unit with Some d => String.eqb d u | None => false end then ret tt
  else
    m <- get_main_unit;;
    l <- gets w_leader;;
    (match departing_unit with
     | Some d => if str_eq_opt d m && l then set_main_unit u else ret tt
     | None => ret tt
     end);;
    reconcile cs.

(** [_on_leader_elected], after [charm_state] has been built. *)
Definition on_leader_elected (cs : CharmState) : M unit :=
  l <- gets w_leader;;
  if negb l then ret tt
  else
    u <- gets w_unit;;
    set_main_unit u;;
    reconcile cs.

(** [peer_units_total] *)
Definition peer_units_total : M nat := gets w_planned.

(** Python [x is None]. *)
Definition is_none {A : Type} (o : option A) : bool :=
  match o with None => true | Some _ => false end.

Section WorkloadVersion.

(** [synapse.get_version] (module [synapse], not among the sources) is
    left abstract: the version read from the given address, or [None]
    when it raises [synapse.APIError]. *)
Variable get_version : string -> option string.

(** [_set_workload_version]; returns the version passed to
    [self.unit.set_workload_version], [None] when none is set (the
    [APIError] is caught and only logged). *)
Definition set_workload_version : M (option string) :=
  c <- gets w_container;;
  if negb (c_can_connect c)
  then (set_status (Maintenance "Waiting for Synapse pebble");; ret None)
  else (a <- gets get_main_unit_address;; ret (get_version a)).

(** [_on_config_changed], after [charm_state] has been built;
    [redis_config] is [charm_state.redis_config]. Returns the workload
    version set, if any. *)
Definition on_config_changed {R : Type} (cs : CharmState) (redis_config : option R)
    : M (option string) :=
  t <- peer_units_total;;
  if is_none redis_config && Nat.ltb 1 t
  then (set_status (Blocked "Redis integration is required.");; ret None)
  else (reconcile cs;; set_workload_version).

End WorkloadVersion.

(** [_on_synapse_pebble_ready], after [charm_state] has been built. *)
Definition on_synapse_pebble_ready {R : Type} (cs : CharmState) (redis_config : option R) : M unit :=
  t <- peer_units_total;;
  if is_none redis_config && Nat.ltb 1 t
  then set_status (Blocked "Redis integration is required.")
  else (set_status Active;; reconcile cs).

(** [_on_relation_changed], after [charm_state] has been built. *)
Definition on_relation_changed (cs : CharmState) : M unit :=
  reconcile cs.

(** ** Summaries of one run of [reconcile] *)

Definition file_at (path : string) (w : World) : option string :=
  dict_get path (c_files (w_container w)).

(** The status [_set_unit_status] computes on a unit that is not blocked. *)
Definition unit_status_of (c : Container) : Status :=
  if negb (c_can_connect c) then Maintenance "Waiting for Synapse pebble"
  else if match c_synapse c with [] => true | _ => false end || any_not_running (c_synapse c)
  then Maintenance "Waiting for Synapse"
  else if match c_nginx c with [] => true | _ => false end || any_not_running (c_nginx c)
  then Maintenance "Waiting for NGINX"
  else Active.

(** The main unit has no key from the secret and must read the key
    file, which does not exist. *)
Definition blocked_on_key (cs : CharmState) (k : option string) (w : World) : bool :=
  is_main_w w && negb (truthy k) &&
  match file_at (signing_key_path cs) w with None => true | Some _ => false end.

(** The status a run of [reconcile] ends with on a reachable workload,
    [k] being the key read from the secret. *)
Definition run_status (cs : CharmState) (k : option string) (w : World) : Status :=
  match c_apply_error (w_container w) with
  | Some m => Blocked m
  | None => if blocked_on_key cs k w then Blocked (signing_key_path cs)
            else unit_status_of (w_container w)
  end.

(** The configuration a run applies once the secret has been read. *)
Definition run_applied (cs : CharmState) (w : World) : list Effect :=
  match c_apply_error (w_container w) with
  | Some _ => []
  | None => [EApply cs (is_main_w w) (get_unit_number (w_unit w) "")]
  end.

(** ** Concrete states and auxiliary definitions *)

(** The entry [instance_map] adds for a worker address. *)
Definition worker_entry (address : string) : string * Host :=
  ("worker" ++ match search_dash_digits address with Some n => n | None => "" end,
   mkHost address 8034%Z).

Definition worker_entries (m : string) (addresses : list string) : Dict Host :=
  map worker_entry (filter (fun a => negb (String.eqb a m)) addresses).

Definition preserves {T A} (f : World -> T) (m : M A) : Prop :=
  forall w, f (snd (m w)) = f w.

Definition peer_exists (w : World) : bool :=
  match w_peer w with Some _ => true | None => false end.

(** Fields that no operation of the charm changes. *)
Definition stable (w : World) : string * string * bool * nat * bool :=
  (w_unit w, w_app w, w_leader w, w_planned w, peer_exists w).

Definition data_get (k : string) (w : World) : option string :=
  match w_peer w with
  | Some p => dict_get k (pr_app_data p)
  | None => None
  end.

(** What [main_of] becomes when a leader records its own name. *)
Definition bootstrapped_main (w : World) : option string :=
  match main_of w with
  | Some m => Some m
  | None => if w_leader w && peer_exists w then Some (w_unit w) else None
  end.

(** The inputs of [get_signing_key]. *)
Definition sig_in (w : World) : option string * bool * Dict (option string) * bool :=
  (data_get SECRET_SIGNING_ID w, peer_exists w, w_secrets w, w_leader w).

(** [get_signing_key] changes nothing: the stored reference, if any,
    names a secret that exists. *)
Definition gsk_clean (w : World) : bool :=
  match data_get SECRET_SIGNING_ID w with
  | Some sid => String.eqb sid "" || match dict_get sid (w_secrets w) with
                                     | Some _ => true
                                     | None => false
                                     end
  | None => true
  end.

(** The state of the workload that the charm does not write: can it be
    reached, the running flags of its services, the apply error. *)
Definition flags (w : World) : bool * list bool * list bool * option string :=
  (c_can_connect (w_container w), c_synapse (w_container w), c_nginx (w_container w),
   c_apply_error (w_container w)).

Definition is_apply (e : Effect) : bool :=
  match e with EApply _ _ _ => true | _ => false end.

(** The configurations applied to the workload so far. *)
Definition applied (w : World) : list Effect := filter is_apply (w_log w).

Definition cs0 : CharmState := mkCharmState "server" None.

Definition ctr_ready : Container := mkContainer true [] [true] [true] None.

(** Three units of an application whose name has a hyphen followed by a digit. *)
Definition w_hyphen_digit_app : World :=
  mkWorld "x-1y/0" "x-1y" true 3
    (Some (mkPeerRel ["x-1y/1"; "x-1y/2"] [(MAIN_UNIT_ID, "x-1y/0")]))
    [] 0 ctr_ready Active [].

(** A recorded main unit whose name carries no number. *)
Definition w_main_without_id : World :=
  mkWorld "synapse/0" "synapse" true 2
    (Some (mkPeerRel ["synapse"] [(MAIN_UNIT_ID, "synapse")]))
    [] 0 ctr_ready Active [].

(** A leader with a peer relation but no main unit recorded yet. *)
Definition w_no_main_leader : World :=
  mkWorld "synapse/1" "synapse" true 2
    (Some (mkPeerRel ["synapse/0"] []))
    [] 0 ctr_ready Active [].

(** A leader before the peer relation exists. *)
Definition w_no_peer_leader : World :=
  mkWorld "synapse/0" "synapse" true 1 None [] 0 ctr_ready Active [].

(** A leader that is the main unit, with a signing key file in the
    workload and no secret reference published yet. *)
Definition w_key_file_only : World :=
  mkWorld "synapse/0" "synapse" true 2
    (Some (mkPeerRel ["synapse/1"] [(MAIN_UNIT_ID, "synapse/0")]))
    [] 0 (mkContainer true [("/data/server.signing.key", "key" ++ String (ascii_of_nat 10) "")]
            [true] [true] None)
    Active [].

(** The same unit, with a published reference to an existing secret. *)
Definition w_key_published : World :=
  mkWorld "synapse/0" "synapse" true 2
    (Some (mkPeerRel ["synapse/1"] [(MAIN_UNIT_ID, "synapse/0"); (SECRET_SIGNING_ID, "secret:0")]))
    [("secret:0", Some "key")] 1
    (mkContainer true [("/data/server.signing.key", "key")] [true] [true] None)
    Active [].

(** The same unit, with a published reference to a secret that does not exist. *)
Definition w_dangling_leader : World :=
  mkWorld "synapse/0" "synapse" true 2
    (Some (mkPeerRel ["synapse/1"] [(MAIN_UNIT_ID, "synapse/0"); (SECRET_SIGNING_ID, "secret:7")]))
    [] 0 (mkContainer true [("/data/server.signing.key", "key" ++ String (ascii_of_nat 10) "")]
            [true] [true] None)
    Active [].

(** A unit left [Blocked] by an earlier run, whose workload is unreachable. *)
Definition w_blocked_unreachable : World :=
  mkWorld "synapse/0" "synapse" true 2
    (Some (mkPeerRel ["synapse/1"] [(MAIN_UNIT_ID, "synapse/0")]))
    [] 0 (mkContainer false [] [] [] None) (Blocked "/data/server.signing.key") [].

(** A unit that is not the leader, holding a reference to a secret
    that no longer exists. *)
Definition w_dangling_non_leader : World :=
  mkWorld "synapse/0" "synapse" false 2
    (Some (mkPeerRel ["synapse/1"] [(MAIN_UNIT_ID, "synapse/0"); (SECRET_SIGNING_ID, "secret:7")]))
    [] 0 ctr_ready Active [].

(** A unit that is not the leader, with the main unit recorded and no
    signing-key reference. *)
Definition w_follower : World :=
  mkWorld "synapse/1" "synapse" false 2
    (Some (mkPeerRel ["synapse/0"] [(MAIN_UNIT_ID, "synapse/0")]))
    [] 0 ctr_ready Active [].

(* ================================================================== *)
(** * Lemmas *)

(** ** Strings *)

Lemma str_app_assoc (a b c : string) : (a ++ b) ++ c = a ++ (b ++ c).
Proof. induction a as [|x a IH]; simpl; [reflexivity | now rewrite IH]. Qed.

Lemma str_app_nil_r (a : string) : a ++ "" = a.
Proof. induction a as [|x a IH]; simpl; [reflexivity | now rewrite IH]. Qed.

Lemma has_char_app (a : ascii) (s t : string) :
  has_char a (s ++ t) = has_char a s || has_char a t.
Proof.
  induction s as [|c s IH]; simpl; [reflexivity|].
  rewrite IH. now rewrite orb_assoc.
Qed.

Lemma split_first_app_nochar (a : ascii) (s t : string) :
  has_char a s = false -> split_first a (s ++ t) = s ++ split_first a t.
Proof.
  induction s as [|c s IH]; simpl; [reflexivity|].
  intros H. apply orb_false_iff in H as [H1 H2].
  rewrite H1. now rewrite IH.
Qed.

Lemma split_first_nochar (a : ascii) (s : string) :
  has_char a s = false -> split_first a s = s.
Proof.
  intros H. rewrite <- (str_app_nil_r s) at 1.
  rewrite split_first_app_nochar by exact H. apply str_app_nil_r.
Qed.

Lemma split_first_here (a : ascii) (r : string) : split_first a (String a r) = "".
Proof. simpl. now rewrite Ascii.eqb_refl. Qed.

Lemma rfind_aux_app (a : ascii) (s t : string) (i acc : Z) :
  rfind_aux a (s ++ t) i acc =
  rfind_aux a t (i + Z.of_nat (String.length s)) (rfind_aux a s i acc).
Proof.
  revert i acc. induction s as [|c s IH]; intros i acc; simpl.
  - now rewrite Z.add_0_r.
  - rewrite IH. f_equal. lia.
Qed.

Lemma rfind_aux_nochar (a : ascii) (s : string) (i acc : Z) :
  has_char a s = false -> rfind_aux a s i acc = acc.
Proof.
  revert i acc. induction s as [|c s IH]; intros i acc H; simpl; [reflexivity|].
  simpl in H. apply orb_false_iff in H as [H1 H2].
  rewrite H1. now apply IH.
Qed.

Lemma str_drop_app (s t : string) (k : nat) :
  str_drop (String.length s + k) (s ++ t) = str_drop k t.
Proof. induction s as [|c s IH]; simpl; [reflexivity | exact IH]. Qed.

Lemma all_digits_nochar (a : ascii) (s : string) :
  is_digit a = false -> all_digits s = true -> has_char a s = false.
Proof.
  intros Ha. induction s as [|c s IH]; simpl; [reflexivity|].
  intros H. apply andb_true_iff in H as [H1 H2].
  rewrite IH by exact H2. rewrite orb_false_r.
  destruct (Ascii.eqb_spec c a); [subst; congruence | reflexivity].
Qed.

Lemma has_digit_drop (n : nat) (s : string) :
  has_digit s = false -> has_digit (str_drop n s) = false.
Proof.
  revert s. induction n as [|n IH]; intros s H; simpl; [exact H|].
  destruct s as [|c s]; [reflexivity|].
  simpl in H. apply orb_false_iff in H as [_ H]. now apply IH.
Qed.

Lemma has_digit_split_first (a : ascii) (s : string) :
  has_digit s = false -> has_digit (split_first a s) = false.
Proof.
  induction s as [|c s IH]; simpl; [reflexivity|].
  intros H. apply orb_false_iff in H as [H1 H2].
  destruct (Ascii.eqb c a); simpl; [reflexivity|].
  rewrite H1. now apply IH.
Qed.

(** Unit names differ in their numbers only if their addresses do. *)
Lemma digits_dot_inj (n1 n2 r1 r2 : string) :
  all_digits n1 = true -> all_digits n2 = true ->
  n1 ++ String "." r1 = n2 ++ String "." r2 -> n1 = n2.
Proof.
  revert n2. induction n1 as [|c1 n1 IH]; intros n2 H1 H2 E;
    destruct n2 as [|c2 n2]; simpl in *.
  - reflexivity.
  - injection E as <- _. discriminate.
  - injection E as -> _. discriminate.
  - apply andb_true_iff in H1 as [_ H1]. apply andb_true_iff in H2 as [_ H2].
    injection E as -> E. f_equal. now apply IH.
Qed.

Lemma str_app_inj_l (p x y : string) : p ++ x = p ++ y -> x = y.
Proof. induction p as [|c p IH]; simpl; [easy|]. intros E. injection E. exact IH. Qed.

Lemma replace_char_app (a b : ascii) (s t : string) :
  replace_char a b (s ++ t) = replace_char a b s ++ replace_char a b t.
Proof. induction s as [|c s IH]; simpl; [reflexivity | now rewrite IH]. Qed.

Lemma replace_char_nochar (a b : ascii) (s : string) :
  has_char a s = false -> replace_char a b s = s.
Proof.
  induction s as [|c s IH]; simpl; [reflexivity|].
  intros H. apply orb_false_iff in H as [H1 H2]. rewrite H1. now rewrite IH.
Qed.

(** ** Unit numbers *)

Lemma get_unit_number_slash (self_name app n : string) :
  has_char "/" app = false -> has_char "." app = false -> all_digits n = true ->
  get_unit_number self_name (app ++ String "/" n) = n.
Proof.
  intros Hs Hd Hn. unfold get_unit_number.
  replace (String.eqb (app ++ String "/" n) "") with false
    by (destruct app; reflexivity).
  assert (Hn1 : has_char "/" n = false) by (apply all_digits_nochar; auto).
  assert (Hn2 : has_char "." n = false) by (apply all_digits_nochar; auto).
  rewrite split_first_nochar
    by (rewrite has_char_app; simpl; now rewrite Hd, Hn2).
  unfold rfind. rewrite rfind_aux_app, (rfind_aux_nochar _ app) by exact Hs.
  simpl. rewrite rfind_aux_nochar by exact Hn1.
  replace (Z.eqb (Z.of_nat (String.length app)) (-1)) with false
    by (symmetry; apply Z.eqb_neq; lia).
  unfold slice_from.
  replace (Z.to_nat (Z.of_nat (String.length app) + 1)) with (String.length app + 1)%nat by lia.
  rewrite str_drop_app. reflexivity.
Qed.

Lemma get_unit_number_dash (self_name app n sfx : string) :
  has_char "/" app = false -> has_char "." app = false -> all_digits n = true ->
  (sfx = "" \/ exists r, sfx = String "." r) ->
  get_unit_number self_name (app ++ String "-" (n ++ sfx)) = n.
Proof.
  intros Hs Hd Hn Hsfx. unfold get_unit_number.
  replace (String.eqb (app ++ String "-" (n ++ sfx)) "") with false
    by (destruct app; reflexivity).
  assert (Hn1 : has_char "/" n = false) by (apply all_digits_nochar; auto).
  assert (Hn2 : has_char "." n = false) by (apply all_digits_nochar; auto).
  assert (Hn3 : has_char "-" n = false) by (apply all_digits_nochar; auto).
  assert (Hpart : split_first "." (app ++ String "-" (n ++ sfx)) = app ++ String "-" n).
  { rewrite split_first_app_nochar by exact Hd. f_equal. simpl. f_equal.
    rewrite split_first_app_nochar by exact Hn2.
    destruct Hsfx as [-> | [r ->]]; simpl; [now rewrite str_app_nil_r|].
    now rewrite str_app_nil_r. }
  rewrite Hpart.
  unfold rfind. rewrite (rfind_aux_nochar "/")
    by (rewrite has_char_app; simpl; now rewrite Hs, Hn1).
  rewrite Z.eqb_refl.
  rewrite rfind_aux_app. simpl. rewrite rfind_aux_nochar by exact Hn3.
  unfold slice_from.
  replace (Z.to_nat (Z.of_nat (String.length app) + 1)) with (String.length app + 1)%nat by lia.
  rewrite str_drop_app. reflexivity.
Qed.

Lemma get_unit_number_no_digit (self_name name : string) :
  name <> "" -> has_digit name = false -> has_digit (get_unit_number self_name name) = false.
Proof.
  intros Hne Hd. unfold get_unit_number.
  replace (String.eqb name "") with false by (symmetry; now apply String.eqb_neq).
  unfold slice_from. apply has_digit_drop, has_digit_split_first, Hd.
Qed.

(** ** Addresses and the instance map *)

Lemma unit_address_digits_inj (app n1 n2 : string) :
  all_digits n1 = true -> all_digits n2 = true ->
  unit_address (app ++ String "/" n1) app = unit_address (app ++ String "/" n2) app ->
  n1 = n2.
Proof.
  intros H1 H2 E. unfold unit_address in E.
  rewrite !replace_char_app in E. simpl in E.
  rewrite !(replace_char_nochar "/" "-" n1), !(replace_char_nochar "/" "-" n2) in E
    by (apply all_digits_nochar; auto).
  rewrite !str_app_assoc in E. apply str_app_inj_l in E. simpl in E.
  injection E as E. exact (digits_dot_inj _ _ _ _ H1 H2 E).
Qed.

Lemma add_workers_raise (m : string) (addresses : list string) (im : Dict Host) :
  (exists a, In a addresses /\ a <> m /\ search_dash_digits a = None) ->
  add_workers m addresses im = Raise AttributeError.
Proof.
  revert im. induction addresses as [|a0 rest IH]; intros im [a [Hin [Hne Hs]]].
  - destruct Hin.
  - simpl. destruct (String.eqb_spec a0 m) as [->|Hne0].
    + apply IH. destruct Hin as [<-|Hin]; [congruence|]. eauto.
    + destruct (search_dash_digits a0) as [g|] eqn:Hg; [|reflexivity].
      apply IH. destruct Hin as [<-|Hin]; [congruence|]. eauto.
Qed.

Lemma dict_set_fresh {V} (k : string) (v : V) (d : Dict V) :
  dict_get k d = None -> dict_set k v d = (d ++ [(k, v)])%list.
Proof.
  induction d as [|[k' v'] d IH]; simpl; [reflexivity|].
  destruct (String.eqb k' k); [discriminate|]. intros H. now rewrite IH.
Qed.

Lemma dict_get_app_none {V} (k : string) (d e : Dict V) :
  dict_get k d = None -> dict_get k e = None -> dict_get k (d ++ e)%list = None.
Proof.
  induction d as [|[k' v'] d IH]; simpl; [tauto|].
  destruct (String.eqb k' k); [discriminate|]. exact IH.
Qed.

Lemma dict_get_single {V} (k x : string) (v : V) :
  dict_get k [(x, v)] = if String.eqb x k then Some v else None.
Proof. reflexivity. Qed.

(** When every worker address yields an id and the ids are distinct, the
    loop appends one entry per non-main address, in list order. *)
Lemma add_workers_distinct (m : string) (addresses : list string) (im : Dict Host) :
  (forall a, In a addresses -> a <> m -> search_dash_digits a <> None) ->
  NoDup (map fst (worker_entries m addresses)) ->
  (forall k, In k (map fst (worker_entries m addresses)) -> dict_get k im = None) ->
  add_workers m addresses im = Ok (im ++ worker_entries m addresses)%list.
Proof.
  revert im. induction addresses as [|a rest IH]; intros im Hid Hnd Hfresh.
  - simpl. now rewrite app_nil_r.
  - unfold worker_entries in *. simpl in *.
    destruct (String.eqb_spec a m) as [->|Hne]; simpl in *.
    + apply IH; auto.
    + destruct (search_dash_digits a) as [g|] eqn:Hg;
        [| exfalso; apply (Hid a); auto].
      inversion Hnd as [|? ? Hnotin Hnd']; subst.
      rewrite dict_set_fresh by (apply Hfresh; now left).
      rewrite IH; auto.
      * rewrite <- app_assoc. unfold worker_entry at 2. now rewrite Hg.
      * intros k Hk. apply dict_get_app_none; [apply Hfresh; now right|].
        rewrite dict_get_single.
        match goal with |- context [String.eqb ?x k] => destruct (String.eqb_spec x k) as [<-|E] end;
          [contradiction | reflexivity].
Qed.

Lemma in_worker_keys (k m : string) (addresses : list string) :
  In k (map fst (worker_entries m addresses)) -> exists g, k = "worker" ++ g.
Proof.
  unfold worker_entries. rewrite map_map. intros Hk.
  apply in_map_iff in Hk as [a [<- _]]. unfold worker_entry. simpl. eauto.
Qed.

Lemma filter_neq_notin (x : string) (l : list string) :
  ~ In x l -> filter (fun a => negb (String.eqb a x)) l = l.
Proof.
  induction l as [|a l IH]; intros Hn; simpl; [reflexivity|].
  destruct (String.eqb_spec a x) as [->|]; [exfalso; apply Hn; now left|].
  simpl. f_equal. apply IH. intros H. apply Hn. now right.
Qed.

Lemma length_filter_neq (x : string) (l : list string) :
  NoDup l -> In x l -> length (filter (fun a => negb (String.eqb a x)) l) = length l - 1.
Proof.
  induction l as [|a l IH]; intros Hnd Hin; [destruct Hin|].
  inversion Hnd as [|? ? Hnotin Hnd']; subst. simpl.
  destruct (String.eqb_spec a x) as [->|Hne]; simpl.
  - rewrite filter_neq_notin by exact Hnotin. lia.
  - destruct Hin as [->|Hin]; [congruence|].
    rewrite IH by assumption. destruct l; [destruct Hin|]. simpl. lia.
Qed.

(** A peer group of size one gets no instance map. *)
Lemma instance_map_single (w : World) : w_planned w = 1 -> instance_map w = Ok None.
Proof. intros H. unfold instance_map. now rewrite H. Qed.

(** When the ids read from the worker addresses are distinct, the
    instance map has [main], [federationsender1] and one [worker<id>] per
    non-main address, in address order; with the main address among [K]
    distinct addresses that is [K + 1] entries. *)
Lemma instance_map_shape (w : World) :
  w_planned w <> 1 ->
  (forall a, In a (peer_addresses w) -> a <> get_main_unit_address w ->
             search_dash_digits a <> None) ->
  NoDup (map fst (worker_entries (get_main_unit_address w) (peer_addresses w))) ->
  let m := get_main_unit_address w in
  instance_map w =
    Ok (Some (("main", mkHost m 8035%Z) :: ("federationsender1", mkHost m 8034%Z)
              :: worker_entries m (peer_addresses w))) /\
  (NoDup (peer_addresses w) -> In m (peer_addresses w) ->
   length (worker_entries m (peer_addresses w)) + 2 = S (length (peer_addresses w))).
Proof.
  intros Hp Hid Hnd m. split.
  - unfold instance_map. apply Nat.eqb_neq in Hp. rewrite Hp.
    rewrite add_workers_distinct; auto.
    intros k Hk. apply in_worker_keys in Hk as [g ->]. reflexivity.
  - intros Hnda Hin. unfold worker_entries. rewrite length_map.
    rewrite length_filter_neq by assumption.
    destruct (peer_addresses w); [destruct Hin | simpl; lia].
Qed.

(** ** Dictionaries *)

Lemma dict_get_set_ne {V} (k k' : string) (v : V) (d : Dict V) :
  k' <> k -> dict_get k (dict_set k' v d) = dict_get k d.
Proof.
  intros Hne. induction d as [|[k0 v0] d IH]; simpl.
  - destruct (String.eqb_spec k' k); [congruence | reflexivity].
  - destruct (String.eqb_spec k0 k') as [->|Hk0]; simpl.
    + destruct (String.eqb_spec k' k); [congruence|].
      reflexivity.
    + destruct (String.eqb k0 k); [reflexivity | exact IH].
Qed.

Lemma dict_get_set_eq {V} (k : string) (v : V) (d : Dict V) :
  dict_get k (dict_set k v d) = Some v.
Proof.
  induction d as [|[k0 v0] d IH]; simpl.
  - now rewrite String.eqb_refl.
  - destruct (String.eqb_spec k0 k) as [->|Hk0]; simpl.
    + now rewrite String.eqb_refl.
    + apply String.eqb_neq in Hk0. rewrite Hk0. exact IH.
Qed.

Lemma dict_get_del_ne {V} (k k' : string) (d : Dict V) :
  k' <> k -> dict_get k (dict_del k' d) = dict_get k d.
Proof.
  intros Hne. induction d as [|[k0 v0] d IH]; simpl; [reflexivity|].
  destruct (String.eqb_spec k0 k') as [->|Hk0]; simpl.
  - destruct (String.eqb_spec k' k); [congruence | exact IH].
  - destruct (String.eqb k0 k); [reflexivity | exact IH].
Qed.

Lemma dict_get_del_eq {V} (k : string) (d : Dict V) :
  dict_get k (dict_del k d) = None.
Proof.
  induction d as [|[k0 v0] d IH]; simpl; [reflexivity|].
  destruct (String.eqb_spec k0 k) as [->|Hk0]; [exact IH|].
  simpl. apply String.eqb_neq in Hk0. now rewrite Hk0.
Qed.

Lemma MAIN_UNIT_ID_ne_SECRET : MAIN_UNIT_ID <> SECRET_SIGNING_ID.
Proof. discriminate. Qed.

(** ** What a computation leaves unchanged *)

Lemma preserves_ret {T A} (f : World -> T) (a : A) : preserves f (ret a).
Proof. intros w. reflexivity. Qed.

Lemma preserves_raise {T A} (f : World -> T) (e : Exn) : preserves f (@raise A e).
Proof. intros w. reflexivity. Qed.

Lemma preserves_gets {T A} (f : World -> T) (g : World -> A) : preserves f (gets g).
Proof. intros w. reflexivity. Qed.

Lemma preserves_bind {T A B} (f : World -> T) (m : M A) (k : A -> M B) :
  preserves f m -> (forall a, preserves f (k a)) -> preserves f (bind m k).
Proof.
  intros Hm Hk w. unfold bind. specialize (Hm w).
  destruct (m w) as [[a|e] w'] eqn:E; simpl in *.
  - rewrite Hk. exact Hm.
  - exact Hm.
Qed.

Lemma preserves_try {T A} (f : World -> T) (m : M A) :
  preserves f m -> preserves f (try_apply_errors m).
Proof.
  intros Hm w. unfold try_apply_errors. specialize (Hm w).
  destruct (m w) as [[a|[]] w'] eqn:E; exact Hm.
Qed.

Create HintDb pres.

(** Decompose a computation along its binds and branches. *)
Ltac pres :=
  repeat match goal with
  | |- preserves _ (bind _ _) => apply preserves_bind; [|intros ?; cbv beta]
  | |- preserves _ (try_apply_errors _) => apply preserves_try
  | |- preserves _ (ret _) => apply preserves_ret
  | |- preserves _ (gets _) => apply preserves_gets
  | |- preserves _ is_main => apply preserves_gets
  | |- preserves _ get_main_unit => apply preserves_gets
  | |- preserves _ (match ?x with _ => _ end) => destruct x
  | |- preserves _ (if ?b then _ else _) => destruct b
  | |- preserves _ _ => solve [eauto with pres]
  end.

Lemma stable_app_data_set k v : preserves stable (app_data_set k v).
Proof.
  intros w. unfold app_data_set, stable, peer_exists.
  destruct (w_peer w) eqn:E, (w_leader w) eqn:L; simpl; rewrite ?E, ?L; reflexivity.
Qed.
Lemma stable_app_data_del k : preserves stable (app_data_del k).
Proof.
  intros w. unfold app_data_del, stable, peer_exists.
  destruct (w_peer w) eqn:E, (w_leader w) eqn:L; simpl; rewrite ?E, ?L; reflexivity.
Qed.
Lemma stable_set_status s : preserves stable (set_status s).
Proof. intros w. reflexivity. Qed.
Lemma stable_push p c : preserves stable (push p c).
Proof. intros w. reflexivity. Qed.
Lemma stable_pull p : preserves stable (pull p).
Proof. intros w. unfold pull. now destruct (dict_get _ _). Qed.
Lemma stable_add_secret c : preserves stable (add_secret c).
Proof. intros w. reflexivity. Qed.
Lemma stable_pebble_reconcile cs b n : preserves stable (pebble_reconcile cs b n).
Proof. intros w. unfold pebble_reconcile. now destruct (c_apply_error _). Qed.
Lemma stable_restart_nginx a : preserves stable (restart_nginx a).
Proof. intros w. reflexivity. Qed.
Lemma stable_update_matrix_auth cs : preserves stable (update_matrix_auth_integration cs).
Proof. intros w. reflexivity. Qed.
#[export] Hint Resolve stable_app_data_set stable_app_data_del stable_set_status
  stable_push stable_pull stable_add_secret stable_pebble_reconcile
  stable_restart_nginx stable_update_matrix_auth : pres.

Lemma stable_set_main_unit u : preserves stable (set_main_unit u).
Proof. unfold set_main_unit. pres. Qed.
Lemma stable_get_signing_key : preserves stable get_signing_key.
Proof. unfold get_signing_key. pres. Qed.
#[export] Hint Resolve stable_set_main_unit stable_get_signing_key : pres.
Lemma stable_set_signing_key k : preserves stable (set_signing_key k).
Proof. unfold set_signing_key. pres. Qed.
Lemma stable_set_unit_status : preserves stable set_unit_status.
Proof. unfold set_unit_status. pres. Qed.
#[export] Hint Resolve stable_set_signing_key stable_set_unit_status : pres.
Lemma stable_reconcile_body_after_key cs k : preserves stable (reconcile_body_after_key cs k).
Proof. unfold reconcile_body_after_key, push_signing_key. cbv zeta. pres. Qed.
#[export] Hint Resolve stable_reconcile_body_after_key : pres.
Lemma stable_reconcile_body cs : preserves stable (reconcile_body cs).
Proof. unfold reconcile_body. pres. Qed.
#[export] Hint Resolve stable_reconcile_body : pres.
Lemma stable_bootstrap_main : preserves stable bootstrap_main.
Proof. unfold bootstrap_main. pres. Qed.
Lemma stable_reconcile_workload cs : preserves stable (reconcile_workload cs).
Proof. unfold reconcile_workload. pres. Qed.
#[export] Hint Resolve stable_bootstrap_main stable_reconcile_workload : pres.
Lemma stable_reconcile cs : preserves stable (reconcile cs).
Proof. unfold reconcile. pres. Qed.
#[export] Hint Resolve stable_reconcile : pres.

Lemma stable_fields (w w' : World) :
  stable w' = stable w ->
  w_unit w' = w_unit w /\ w_app w' = w_app w /\ w_leader w' = w_leader w /\
  w_planned w' = w_planned w /\ peer_exists w' = peer_exists w.
Proof. unfold stable. intros E. injection E. tauto. Qed.

(** ** The main designation *)

Lemma main_of_data_get (w : World) : main_of w = data_get MAIN_UNIT_ID w.
Proof. reflexivity. Qed.

Lemma main_app_data_set_secret v : preserves (data_get MAIN_UNIT_ID) (app_data_set SECRET_SIGNING_ID v).
Proof.
  intros w. unfold app_data_set, data_get. destruct (w_peer w) as [p|] eqn:E; [|simpl; now rewrite E].
  destruct (w_leader w); simpl; [|now rewrite E].
  destruct (String.eqb v "").
  - apply dict_get_del_ne. discriminate.
  - apply dict_get_set_ne. discriminate.
Qed.
Lemma main_app_data_del_secret : preserves (data_get MAIN_UNIT_ID) (app_data_del SECRET_SIGNING_ID).
Proof.
  intros w. unfold app_data_del, data_get. destruct (w_peer w) as [p|] eqn:E; [|simpl; now rewrite E].
  destruct (w_leader w); simpl; [|now rewrite E]. apply dict_get_del_ne. discriminate.
Qed.
Lemma main_set_status s : preserves (data_get MAIN_UNIT_ID) (set_status s).
Proof. intros w. reflexivity. Qed.
Lemma main_push p c : preserves (data_get MAIN_UNIT_ID) (push p c).
Proof. intros w. reflexivity. Qed.
Lemma main_pull p : preserves (data_get MAIN_UNIT_ID) (pull p).
Proof. intros w. unfold pull. now destruct (dict_get _ _). Qed.
Lemma main_add_secret c : preserves (data_get MAIN_UNIT_ID) (add_secret c).
Proof. intros w. reflexivity. Qed.
Lemma main_pebble_reconcile cs b n : preserves (data_get MAIN_UNIT_ID) (pebble_reconcile cs b n).
Proof. intros w. unfold pebble_reconcile. now destruct (c_apply_error _). Qed.
Lemma main_restart_nginx a : preserves (data_get MAIN_UNIT_ID) (restart_nginx a).
Proof. intros w. reflexivity. Qed.
Lemma main_update_matrix_auth cs : preserves (data_get MAIN_UNIT_ID) (update_matrix_auth_integration cs).
Proof. intros w. reflexivity. Qed.
#[export] Hint Resolve main_app_data_set_secret main_app_data_del_secret main_set_status
  main_push main_pull main_add_secret main_pebble_reconcile main_restart_nginx
  main_update_matrix_auth : pres.

Lemma main_get_signing_key : preserves (data_get MAIN_UNIT_ID) get_signing_key.
Proof. unfold get_signing_key. pres. Qed.
#[export] Hint Resolve main_get_signing_key : pres.
Lemma main_set_signing_key k : preserves (data_get MAIN_UNIT_ID) (set_signing_key k).
Proof. unfold set_signing_key. pres. Qed.
Lemma main_set_unit_status : preserves (data_get MAIN_UNIT_ID) set_unit_status.
Proof. unfold set_unit_status. pres. Qed.
#[export] Hint Resolve main_set_signing_key main_set_unit_status : pres.
Lemma main_reconcile_body_after_key cs k : preserves (data_get MAIN_UNIT_ID) (reconcile_body_after_key cs k).
Proof. unfold reconcile_body_after_key, push_signing_key. cbv zeta. pres. Qed.
#[export] Hint Resolve main_reconcile_body_after_key : pres.
Lemma main_reconcile_body cs : preserves (data_get MAIN_UNIT_ID) (reconcile_body cs).
Proof. unfold reconcile_body. pres. Qed.
#[export] Hint Resolve main_reconcile_body : pres.
Lemma main_reconcile_workload cs : preserves (data_get MAIN_UNIT_ID) (reconcile_workload cs).
Proof. unfold reconcile_workload. pres. Qed.

Lemma bind_tail_preserves {T A B} (f : World -> T) (m : M A) (k : A -> M B) (w : World) :
  (forall a, preserves f (k a)) -> f (snd (bind m k w)) = f (snd (m w)).
Proof.
  intros Hk. unfold bind. destruct (m w) as [[a|e] w'] eqn:E; simpl; [apply Hk | reflexivity].
Qed.

Lemma set_main_unit_self (w : World) :
  w_leader w = true -> w_unit w <> "" ->
  fst (set_main_unit (w_unit w) w) = Ok tt /\
  main_of (snd (set_main_unit (w_unit w) w)) =
    if peer_exists w then Some (w_unit w) else main_of w.
Proof.
  intros Hl Hu. unfold set_main_unit, bind, gets, peer_exists, main_of.
  simpl. destruct (w_peer w) as [p|] eqn:Hp; [|split; [reflexivity | simpl; now rewrite Hp]].
  unfold app_data_set. rewrite Hp, Hl. simpl.
  replace (String.eqb (w_unit w) "") with false by (symmetry; now apply String.eqb_neq).
  split; [reflexivity|]. apply dict_get_set_eq.
Qed.

Lemma bootstrap_main_spec (w : World) :
  w_unit w <> "" ->
  fst (bootstrap_main w) = Ok tt /\ main_of (snd (bootstrap_main w)) = bootstrapped_main w.
Proof.
  intros Hu. unfold bootstrap_main, bootstrapped_main, bind, gets, get_main_unit. simpl.
  destruct (main_of w) as [m|] eqn:Hm; [split; [reflexivity | exact Hm]|].
  destruct (w_leader w) eqn:Hl; [|split; [reflexivity | exact Hm]].
  destruct (set_main_unit_self w Hl Hu) as [H1 H2]. split; [exact H1|].
  rewrite H2. simpl. destruct (peer_exists w); [reflexivity | exact Hm].
Qed.

Lemma reconcile_main (cs : CharmState) (w : World) :
  w_unit w <> "" -> main_of (snd (reconcile cs w)) = bootstrapped_main w.
Proof.
  intros Hu. unfold reconcile. rewrite main_of_data_get.
  rewrite bind_tail_preserves by (intros; apply main_reconcile_workload).
  rewrite <- main_of_data_get. apply bootstrap_main_spec, Hu.
Qed.

Lemma unit_after (A : Type) (m : M A) (w : World) :
  preserves stable m -> w_unit (snd (m w)) = w_unit w /\ w_leader (snd (m w)) = w_leader w
  /\ peer_exists (snd (m w)) = peer_exists w.
Proof. intros H. specialize (H w). apply stable_fields in H. tauto. Qed.

Lemma set_main_unit_then_reconcile (cs : CharmState) (w : World) :
  w_leader w = true -> w_unit w <> "" -> peer_exists w = true ->
  main_of (snd (bind (set_main_unit (w_unit w)) (fun _ => reconcile cs) w)) = Some (w_unit w).
Proof.
  intros Hl Hu Hp. destruct (set_main_unit_self w Hl Hu) as [H1 H2].
  rewrite Hp in H2. unfold bind.
  destruct (set_main_unit (w_unit w) w) as [r w1] eqn:E. simpl in H1, H2. subst r.
  destruct (unit_after _ (set_main_unit (w_unit w)) w (stable_set_main_unit _)) as [U1 _].
  rewrite E in U1. simpl in U1.
  rewrite reconcile_main by congruence. unfold bootstrapped_main. now rewrite H2.
Qed.

Lemma main_of_some_peer (w : World) (m : string) : main_of w = Some m -> peer_exists w = true.
Proof. unfold main_of, peer_exists. destruct (w_peer w); [reflexivity | discriminate]. Qed.

Lemma stable_on_leader_elected cs : preserves stable (on_leader_elected cs).
Proof. unfold on_leader_elected. pres. Qed.

Lemma on_leader_elected_leader (cs : CharmState) (w : World) :
  w_leader w = true ->
  on_leader_elected cs w = bind (set_main_unit (w_unit w)) (fun _ => reconcile cs) w.
Proof. intros Hl. unfold on_leader_elected, bind at 1 2, gets. now rewrite Hl. Qed.

(** ** Running a hook step by step *)

Lemma bind_ok {A B} (m : M A) (k : A -> M B) (w : World) (a : A) (w' : World) :
  m w = (Ok a, w') -> bind m k w = k a w'.
Proof. intros E. unfold bind. now rewrite E. Qed.

Lemma bind_raise {A B} (m : M A) (k : A -> M B) (w : World) (e : Exn) (w' : World) :
  m w = (Raise e, w') -> bind m k w = (Raise e, w').
Proof. intros E. unfold bind. now rewrite E. Qed.

Lemma bootstrap_main_ok (w : World) : bootstrap_main w = (Ok tt, snd (bootstrap_main w)).
Proof.
  unfold bootstrap_main, get_main_unit, bind, gets. cbv beta iota.
  destruct (main_of w); [reflexivity|].
  destruct (w_leader w) eqn:L; [|reflexivity].
  unfold set_main_unit, bind, gets. cbv beta iota.
  destruct (w_peer w) eqn:P; [|reflexivity].
  unfold app_data_set. rewrite P, L. reflexivity.
Qed.

(** The container is changed by [push] only. *)
Lemma container_app_data_set k v : preserves w_container (app_data_set k v).
Proof. intros w. unfold app_data_set. now destruct (w_peer w), (w_leader w). Qed.
Lemma container_app_data_del k : preserves w_container (app_data_del k).
Proof. intros w. unfold app_data_del. now destruct (w_peer w), (w_leader w). Qed.
Lemma container_set_status s : preserves w_container (set_status s).
Proof. intros w. reflexivity. Qed.
Lemma container_pull p : preserves w_container (pull p).
Proof. intros w. unfold pull. now destruct (dict_get _ _). Qed.
Lemma container_add_secret c : preserves w_container (add_secret c).
Proof. intros w. reflexivity. Qed.
Lemma container_pebble_reconcile cs b n : preserves w_container (pebble_reconcile cs b n).
Proof. intros w. unfold pebble_reconcile. now destruct (c_apply_error _). Qed.
Lemma container_restart_nginx a : preserves w_container (restart_nginx a).
Proof. intros w. reflexivity. Qed.
Lemma container_update_matrix_auth cs : preserves w_container (update_matrix_auth_integration cs).
Proof. intros w. reflexivity. Qed.
#[export] Hint Resolve container_app_data_set container_app_data_del container_set_status
  container_pull container_add_secret container_pebble_reconcile container_restart_nginx
  container_update_matrix_auth : pres.
Lemma container_set_main_unit u : preserves w_container (set_main_unit u).
Proof. unfold set_main_unit. pres. Qed.
Lemma container_get_signing_key : preserves w_container get_signing_key.
Proof. unfold get_signing_key. pres. Qed.
#[export] Hint Resolve container_set_main_unit container_get_signing_key : pres.
Lemma container_set_signing_key k : preserves w_container (set_signing_key k).
Proof. unfold set_signing_key. pres. Qed.
Lemma container_set_unit_status : preserves w_container set_unit_status.
Proof. unfold set_unit_status. pres. Qed.
#[export] Hint Resolve container_set_signing_key container_set_unit_status : pres.
Lemma container_bootstrap_main : preserves w_container bootstrap_main.
Proof. unfold bootstrap_main. pres. Qed.

Lemma bind_eq {A B} (m : M A) (k : A -> M B) (w : World) :
  bind m k w = match m w with
               | (Ok a, w') => k a w'
               | (Raise e, w') => (Raise e, w')
               end.
Proof. reflexivity. Qed.

(** ** What [get_signing_key] reads *)

Lemma gsk_fst_dep (w w' : World) :
  sig_in w = sig_in w' -> fst (get_signing_key w) = fst (get_signing_key w').
Proof.
  unfold sig_in, data_get, peer_exists, get_signing_key, bind, gets. cbv beta iota.
  destruct (w_peer w) as [p|] eqn:P, (w_peer w') as [p'|] eqn:P'; intros H;
    try discriminate; [|reflexivity].
  assert (D : dict_get SECRET_SIGNING_ID (pr_app_data p) = dict_get SECRET_SIGNING_ID (pr_app_data p'))
    by congruence.
  assert (S : w_secrets w = w_secrets w') by congruence.
  assert (L : w_leader w = w_leader w') by congruence.
  rewrite D. destruct (dict_get SECRET_SIGNING_ID (pr_app_data p')) as [sid|]; [|reflexivity].
  destruct (String.eqb sid ""); [reflexivity|]. rewrite S.
  destruct (dict_get sid (w_secrets w')); [reflexivity|].
  unfold app_data_del. rewrite P, P', L. destruct (w_leader w'); reflexivity.
Qed.

Lemma gsk_clean_dep (w w' : World) : sig_in w = sig_in w' -> gsk_clean w = gsk_clean w'.
Proof.
  unfold sig_in, gsk_clean. intros H.
  assert (D : data_get SECRET_SIGNING_ID w = data_get SECRET_SIGNING_ID w') by congruence.
  assert (S : w_secrets w = w_secrets w') by congruence.
  now rewrite D, S.
Qed.

Lemma gsk_clean_noop (w : World) :
  gsk_clean w = true -> exists k, get_signing_key w = (Ok k, w).
Proof.
  unfold gsk_clean, data_get, get_signing_key, bind, gets. cbv beta iota.
  destruct (w_peer w) as [p|]; [|eexists; reflexivity].
  destruct (dict_get SECRET_SIGNING_ID (pr_app_data p)) as [sid|]; [|eexists; reflexivity].
  destruct (String.eqb sid ""); [eexists; reflexivity|]. cbn [orb].
  destruct (dict_get sid (w_secrets w)); [eexists; reflexivity | discriminate].
Qed.

Lemma gsk_ok_clean (w : World) (k : option string) (w' : World) :
  get_signing_key w = (Ok k, w') -> gsk_clean w' = true.
Proof.
  unfold get_signing_key, bind, gets. cbv beta iota.
  destruct (w_peer w) as [p|] eqn:P.
  2:{ intros E. injection E as _ <-. unfold gsk_clean, data_get. now rewrite P. }
  destruct (dict_get SECRET_SIGNING_ID (pr_app_data p)) as [sid|] eqn:D.
  2:{ intros E. injection E as _ <-. unfold gsk_clean, data_get. now rewrite P, D. }
  destruct (String.eqb sid "") eqn:Z.
  { intros E. injection E as _ <-. unfold gsk_clean, data_get. now rewrite P, D, Z. }
  destruct (dict_get sid (w_secrets w)) eqn:G.
  { intros E. injection E as _ <-. unfold gsk_clean, data_get. now rewrite P, D, Z, G. }
  unfold app_data_del. rewrite P. destruct (w_leader w); [|discriminate].
  intros E. injection E as _ <-. unfold gsk_clean, data_get. simpl.
  now rewrite dict_get_del_eq.
Qed.

Lemma gsk_raise (w : World) (e : Exn) (w' : World) :
  get_signing_key w = (Raise e, w') -> e = RelationDataAccessError /\ w' = w.
Proof.
  unfold get_signing_key, bind, gets. cbv beta iota.
  destruct (w_peer w) as [p|] eqn:P; [|discriminate].
  destruct (dict_get SECRET_SIGNING_ID (pr_app_data p)) as [sid|]; [|discriminate].
  destruct (String.eqb sid ""); [discriminate|].
  destruct (dict_get sid (w_secrets w)); [discriminate|].
  unfold app_data_del. rewrite P. destruct (w_leader w); [discriminate|].
  intros E. injection E as <- <-. split; reflexivity.
Qed.

(** On a world where [get_signing_key] changes nothing, it returns what
    it returns on any world with the same inputs. *)
Lemma gsk_same (w w' : World) (k : option string) :
  gsk_clean w' = true -> sig_in w' = sig_in w -> fst (get_signing_key w) = Ok k ->
  get_signing_key w' = (Ok k, w').
Proof.
  intros C S F. destruct (gsk_clean_noop w' C) as [k' E].
  pose proof (gsk_fst_dep w' w S) as D. rewrite E, F in D. simpl in D.
  injection D as ->. exact E.
Qed.

(** ** What the charm's operations leave of the signing-key inputs,
    the workload state and the applied configurations *)

Lemma sig_app_data_set_main v : preserves sig_in (app_data_set MAIN_UNIT_ID v).
Proof.
  intros w. unfold app_data_set, sig_in, data_get, peer_exists.
  destruct (w_peer w) as [p|] eqn:E; [|simpl; now rewrite E].
  destruct (w_leader w) eqn:L; simpl; rewrite ?E, ?L; [|reflexivity].
  destruct (String.eqb v "").
  - rewrite dict_get_del_ne by discriminate. reflexivity.
  - rewrite dict_get_set_ne by discriminate. reflexivity.
Qed.
Lemma sig_set_status s : preserves sig_in (set_status s).
Proof. intros w. reflexivity. Qed.
Lemma sig_push p c : preserves sig_in (push p c).
Proof. intros w. reflexivity. Qed.
Lemma sig_pull p : preserves sig_in (pull p).
Proof. intros w. unfold pull. now destruct (dict_get _ _). Qed.
Lemma sig_pebble_reconcile cs b n : preserves sig_in (pebble_reconcile cs b n).
Proof. intros w. unfold pebble_reconcile. now destruct (c_apply_error _). Qed.
Lemma sig_restart_nginx a : preserves sig_in (restart_nginx a).
Proof. intros w. reflexivity. Qed.
Lemma sig_update_matrix_auth cs : preserves sig_in (update_matrix_auth_integration cs).
Proof. intros w. reflexivity. Qed.
#[export] Hint Resolve sig_app_data_set_main sig_set_status sig_push sig_pull
  sig_pebble_reconcile sig_restart_nginx sig_update_matrix_auth : pres.
Lemma sig_set_main_unit u : preserves sig_in (set_main_unit u).
Proof. unfold set_main_unit. pres. Qed.
#[export] Hint Resolve sig_set_main_unit : pres.
Lemma sig_set_unit_status : preserves sig_in set_unit_status.
Proof. unfold set_unit_status. pres. Qed.
Lemma sig_bootstrap_main : preserves sig_in bootstrap_main.
Proof. unfold bootstrap_main. pres. Qed.
#[export] Hint Resolve sig_set_unit_status sig_bootstrap_main : pres.

Lemma flags_app_data_set k v : preserves flags (app_data_set k v).
Proof. intros w. unfold app_data_set. now destruct (w_peer w), (w_leader w). Qed.
Lemma flags_app_data_del k : preserves flags (app_data_del k).
Proof. intros w. unfold app_data_del. now destruct (w_peer w), (w_leader w). Qed.
Lemma flags_set_status s : preserves flags (set_status s).
Proof. intros w. reflexivity. Qed.
Lemma flags_push p c : preserves flags (push p c).
Proof. intros w. reflexivity. Qed.
Lemma flags_pull p : preserves flags (pull p).
Proof. intros w. unfold pull. now destruct (dict_get _ _). Qed.
Lemma flags_add_secret c : preserves flags (add_secret c).
Proof. intros w. reflexivity. Qed.
Lemma flags_pebble_reconcile cs b n : preserves flags (pebble_reconcile cs b n).
Proof. intros w. unfold pebble_reconcile. now destruct (c_apply_error _). Qed.
Lemma flags_restart_nginx a : preserves flags (restart_nginx a).
Proof. intros w. reflexivity. Qed.
Lemma flags_update_matrix_auth cs : preserves flags (update_matrix_auth_integration cs).
Proof. intros w. reflexivity. Qed.
#[export] Hint Resolve flags_app_data_set flags_app_data_del flags_set_status flags_push
  flags_pull flags_add_secret flags_pebble_reconcile flags_restart_nginx
  flags_update_matrix_auth : pres.
Lemma flags_get_signing_key : preserves flags get_signing_key.
Proof. unfold get_signing_key. pres. Qed.
Lemma flags_set_main_unit u : preserves flags (set_main_unit u).
Proof. unfold set_main_unit. pres. Qed.
#[export] Hint Resolve flags_get_signing_key flags_set_main_unit : pres.
Lemma flags_set_signing_key k : preserves flags (set_signing_key k).
Proof. unfold set_signing_key. pres. Qed.
Lemma flags_set_unit_status : preserves flags set_unit_status.
Proof. unfold set_unit_status. pres. Qed.
#[export] Hint Resolve flags_set_signing_key flags_set_unit_status : pres.
Lemma flags_reconcile_body_after_key cs k : preserves flags (reconcile_body_after_key cs k).
Proof. unfold reconcile_body_after_key, push_signing_key. cbv zeta. pres. Qed.
#[export] Hint Resolve flags_reconcile_body_after_key : pres.
Lemma flags_reconcile_body cs : preserves flags (reconcile_body cs).
Proof. unfold reconcile_body. pres. Qed.
#[export] Hint Resolve flags_reconcile_body : pres.
Lemma flags_reconcile_workload cs : preserves flags (reconcile_workload cs).
Proof. unfold reconcile_workload. pres. Qed.

Lemma applied_emit (e : Effect) (w : World) :
  is_apply e = false -> applied (emit e w) = applied w.
Proof. intros H. unfold applied, emit. simpl. rewrite filter_app. simpl. rewrite H. apply app_nil_r. Qed.

Lemma applied_app_data_set k v : preserves applied (app_data_set k v).
Proof.
  intros w. unfold app_data_set. destruct (w_peer w), (w_leader w); simpl; try reflexivity.
  rewrite applied_emit by reflexivity. reflexivity.
Qed.
Lemma applied_app_data_del k : preserves applied (app_data_del k).
Proof.
  intros w. unfold app_data_del. destruct (w_peer w), (w_leader w); simpl; try reflexivity.
  rewrite applied_emit by reflexivity. reflexivity.
Qed.
Lemma applied_set_status s : preserves applied (set_status s).
Proof. intros w. simpl. rewrite applied_emit by reflexivity. reflexivity. Qed.
Lemma applied_push p c : preserves applied (push p c).
Proof. intros w. simpl. rewrite applied_emit by reflexivity. reflexivity. Qed.
Lemma applied_pull p : preserves applied (pull p).
Proof. intros w. unfold pull. now destruct (dict_get _ _). Qed.
Lemma applied_add_secret c : preserves applied (add_secret c).
Proof. intros w. simpl. rewrite applied_emit by reflexivity. reflexivity. Qed.
Lemma applied_restart_nginx a : preserves applied (restart_nginx a).
Proof. intros w. simpl. rewrite applied_emit by reflexivity. reflexivity. Qed.
Lemma applied_update_matrix_auth cs : preserves applied (update_matrix_auth_integration cs).
Proof. intros w. simpl. rewrite applied_emit by reflexivity. reflexivity. Qed.
#[export] Hint Resolve applied_app_data_set applied_app_data_del applied_set_status
  applied_push applied_pull applied_add_secret applied_restart_nginx
  applied_update_matrix_auth : pres.
Lemma applied_get_signing_key : preserves applied get_signing_key.
Proof. unfold get_signing_key. pres. Qed.
Lemma applied_set_main_unit u : preserves applied (set_main_unit u).
Proof. unfold set_main_unit. pres. Qed.
#[export] Hint Resolve applied_get_signing_key applied_set_main_unit : pres.
Lemma applied_set_signing_key k : preserves applied (set_signing_key k).
Proof. unfold set_signing_key. pres. Qed.
Lemma applied_set_unit_status : preserves applied set_unit_status.
Proof. unfold set_unit_status. pres. Qed.
Lemma applied_bootstrap_main : preserves applied bootstrap_main.
Proof. unfold bootstrap_main. pres. Qed.

(** ** [set_signing_key] on a world where the secret can be read *)

Lemma set_signing_key_spec (s : string) (y : World) :
  gsk_clean y = true ->
  fst (set_signing_key s y) = Ok tt /\
  gsk_clean (snd (set_signing_key s y)) = true /\
  (sig_in (snd (set_signing_key s y)) = sig_in y \/
   (w_leader y = true /\ fst (get_signing_key (snd (set_signing_key s y))) = Ok (Some s))).
Proof.
  intros C. destruct (gsk_clean_noop y C) as [k G].
  unfold set_signing_key. rewrite bind_eq. unfold gets. cbv beta iota.
  destruct (w_peer y) as [p|] eqn:P; [|simpl; auto].
  rewrite bind_eq, G.
  destruct (str_eq_opt s k); [simpl; auto|].
  rewrite bind_eq. unfold gets. cbv beta iota.
  destruct (w_leader y) eqn:L; [|simpl; auto].
  rewrite bind_eq. unfold add_secret, app_data_set. simpl. rewrite P, L. simpl.
  split; [reflexivity|]. split.
  - unfold gsk_clean, data_get. simpl. rewrite dict_get_set_eq. simpl.
    rewrite ?String.eqb_refl; simpl; rewrite ?orb_true_r; reflexivity.
  - right. split; [reflexivity|].
    unfold get_signing_key, bind, gets. simpl. rewrite dict_get_set_eq. simpl.
    now rewrite String.eqb_refl.
Qed.

(** ** One run of the workload part of [reconcile] *)

Lemma status_app_data_set k v : preserves w_status (app_data_set k v).
Proof. intros w. unfold app_data_set. now destruct (w_peer w), (w_leader w). Qed.
Lemma status_app_data_del k : preserves w_status (app_data_del k).
Proof. intros w. unfold app_data_del. now destruct (w_peer w), (w_leader w). Qed.
Lemma status_push p c : preserves w_status (push p c).
Proof. intros w. reflexivity. Qed.
Lemma status_pull p : preserves w_status (pull p).
Proof. intros w. unfold pull. now destruct (dict_get _ _). Qed.
Lemma status_add_secret c : preserves w_status (add_secret c).
Proof. intros w. reflexivity. Qed.
Lemma status_pebble_reconcile cs b n : preserves w_status (pebble_reconcile cs b n).
Proof. intros w. unfold pebble_reconcile. now destruct (c_apply_error _). Qed.
Lemma status_restart_nginx a : preserves w_status (restart_nginx a).
Proof. intros w. reflexivity. Qed.
Lemma status_update_matrix_auth cs : preserves w_status (update_matrix_auth_integration cs).
Proof. intros w. reflexivity. Qed.
#[export] Hint Resolve status_app_data_set status_app_data_del status_push status_pull
  status_add_secret status_pebble_reconcile status_restart_nginx status_update_matrix_auth : pres.
Lemma status_get_signing_key : preserves w_status get_signing_key.
Proof. unfold get_signing_key. pres. Qed.
#[export] Hint Resolve status_get_signing_key : pres.
Lemma status_set_signing_key k : preserves w_status (set_signing_key k).
Proof. unfold set_signing_key. pres. Qed.

Lemma push_signing_key_ok (p : string) (k : option string) (w : World) :
  push_signing_key p k w = (Ok tt, snd (push_signing_key p k w)).
Proof. unfold push_signing_key. destruct k; [destruct (truthy _)|]; reflexivity. Qed.

Lemma push_signing_key_falsy (p : string) (k : option string) :
  truthy k = false -> push_signing_key p k = ret tt.
Proof. unfold push_signing_key. intros T. destruct k; [now rewrite T | reflexivity]. Qed.

Lemma sig_push_signing_key p k : preserves sig_in (push_signing_key p k).
Proof. unfold push_signing_key. pres. Qed.
Lemma main_push_signing_key p k : preserves (data_get MAIN_UNIT_ID) (push_signing_key p k).
Proof. unfold push_signing_key. pres. Qed.
Lemma stable_push_signing_key p k : preserves stable (push_signing_key p k).
Proof. unfold push_signing_key. pres. Qed.
Lemma flags_push_signing_key p k : preserves flags (push_signing_key p k).
Proof. unfold push_signing_key. pres. Qed.
Lemma applied_push_signing_key p k : preserves applied (push_signing_key p k).
Proof. unfold push_signing_key. pres. Qed.
Lemma status_push_signing_key p k : preserves w_status (push_signing_key p k).
Proof. unfold push_signing_key. pres. Qed.
#[export] Hint Resolve sig_push_signing_key main_push_signing_key stable_push_signing_key
  flags_push_signing_key applied_push_signing_key status_push_signing_key status_set_signing_key : pres.
Lemma status_reconcile_body_after_key cs k : preserves w_status (reconcile_body_after_key cs k).
Proof. unfold reconcile_body_after_key. cbv zeta. pres. Qed.

Lemma gsk_idem (w : World) (k : option string) (w' : World) :
  get_signing_key w = (Ok k, w') -> get_signing_key w' = (Ok k, w').
Proof.
  intros E. destruct (gsk_clean_noop w' (gsk_ok_clean _ _ _ E)) as [k' E'].
  rewrite E'. f_equal. f_equal.
  revert E E'. unfold get_signing_key, bind, gets. cbv beta iota.
  destruct (w_peer w) as [p|] eqn:P.
  2:{ intros E. injection E as <- <-. rewrite P. intros E'. now injection E'. }
  destruct (dict_get SECRET_SIGNING_ID (pr_app_data p)) as [sid|] eqn:D.
  2:{ intros E. injection E as <- <-. rewrite P, D. intros E'. now injection E'. }
  destruct (String.eqb sid "") eqn:Z.
  { intros E. injection E as <- <-. rewrite P, D, Z. intros E'. now injection E'. }
  destruct (dict_get sid (w_secrets w)) eqn:G.
  { intros E. injection E as <- <-. rewrite P, D, Z, G. intros E'. now injection E'. }
  unfold app_data_del. rewrite P. destruct (w_leader w); [|discriminate].
  intros E. injection E as <- <-. simpl. rewrite dict_get_del_eq. intros E'. now injection E'.
Qed.

Lemma is_main_w_dep (w w' : World) :
  data_get MAIN_UNIT_ID w = data_get MAIN_UNIT_ID w' -> w_unit w = w_unit w' ->
  is_main_w w = is_main_w w'.
Proof. unfold is_main_w. rewrite (main_of_data_get w), (main_of_data_get w'). intros -> ->. reflexivity. Qed.

Lemma set_unit_status_eq (y : World) :
  (forall m, w_status y <> Blocked m) ->
  set_unit_status y = set_status (unit_status_of (w_container y)) y.
Proof.
  intros H. unfold set_unit_status, unit_status_of, bind, gets. cbv beta iota.
  destruct (w_status y) eqn:S; [| |exfalso; eapply H; reflexivity];
    repeat match goal with |- context [if ?b then _ else _] => destruct b end; reflexivity.
Qed.

Lemma unit_status_of_flags (w w' : World) :
  flags w = flags w' -> unit_status_of (w_container w) = unit_status_of (w_container w').
Proof.
  unfold flags, unit_status_of. intros H.
  assert (A : c_can_connect (w_container w) = c_can_connect (w_container w')) by congruence.
  assert (B : c_synapse (w_container w) = c_synapse (w_container w')) by congruence.
  assert (C : c_nginx (w_container w) = c_nginx (w_container w')) by congruence.
  now rewrite A, B, C.
Qed.

Lemma blocked_on_key_dep (cs : CharmState) (k : option string) (w w' : World) :
  is_main_w w = is_main_w w' ->
  file_at (signing_key_path cs) w = file_at (signing_key_path cs) w' ->
  blocked_on_key cs k w = blocked_on_key cs k w'.
Proof. unfold blocked_on_key. intros -> ->. reflexivity. Qed.

Lemma run_applied_dep (cs : CharmState) (w w' : World) :
  flags w = flags w' -> is_main_w w = is_main_w w' -> w_unit w = w_unit w' ->
  run_applied cs w = run_applied cs w'.
Proof.
  unfold run_applied, flags. intros F -> ->.
  assert (A : c_apply_error (w_container w) = c_apply_error (w_container w')) by congruence.
  now rewrite A.
Qed.

Lemma applied_apply (e : Effect) (w : World) :
  is_apply e = true -> applied (emit e w) = (applied w ++ [e])%list.
Proof. intros H. unfold applied, emit. simpl. rewrite filter_app. simpl. now rewrite H. Qed.

Lemma body_spec (cs : CharmState) (k : option string) (y : World) :
  get_signing_key y = (Ok k, y) ->
  fst (reconcile_body_after_key cs k y) =
    match c_apply_error (w_container y) with
    | Some m => Raise (PebbleServiceError m)
    | None => if blocked_on_key cs k y then Raise (FileNotFoundError (signing_key_path cs))
              else Ok tt
    end /\
  applied (snd (reconcile_body_after_key cs k y)) = (applied y ++ run_applied cs y)%list /\
  exists k2, get_signing_key (snd (reconcile_body_after_key cs k y)) =
               (Ok k2, snd (reconcile_body_after_key cs k y)) /\
    (c_apply_error (w_container y) = None ->
     blocked_on_key cs k2 (snd (reconcile_body_after_key cs k y)) = blocked_on_key cs k y).
Proof.
  intros G.
  assert (C : gsk_clean y = true) by exact (gsk_ok_clean _ _ _ G).
  unfold reconcile_body_after_key. cbv zeta.
  rewrite bind_eq, (push_signing_key_ok (signing_key_path cs) k y).
  set (y1 := snd (push_signing_key (signing_key_path cs) k y)).
  assert (S1 : sig_in y1 = sig_in y) by apply sig_push_signing_key.
  assert (M1 : data_get MAIN_UNIT_ID y1 = data_get MAIN_UNIT_ID y) by apply main_push_signing_key.
  assert (T1 : stable y1 = stable y) by apply stable_push_signing_key.
  assert (F1 : flags y1 = flags y) by apply flags_push_signing_key.
  assert (A1 : applied y1 = applied y) by apply applied_push_signing_key.
  assert (U1 : w_unit y1 = w_unit y) by (apply stable_fields in T1; tauto).
  assert (I1 : is_main_w y1 = is_main_w y) by (apply is_main_w_dep; [exact M1 | exact U1]).
  assert (G1 : get_signing_key y1 = (Ok k, y1)).
  { apply (gsk_same y); [rewrite (gsk_clean_dep _ _ S1); exact C | exact S1 | now rewrite G]. }
  assert (P1 : truthy k = false -> y1 = y).
  { intros Tk. unfold y1. now rewrite push_signing_key_falsy. }
  assert (AE : c_apply_error (w_container y1) = c_apply_error (w_container y))
    by (unfold flags in F1; congruence).
  clearbody y1.
  unfold is_main, gets. rewrite !bind_eq. cbv beta iota.
  unfold pebble_reconcile. rewrite AE.
  destruct (c_apply_error (w_container y)) as [m|] eqn:Hae.
  { cbv beta iota. cbn [fst snd]. split; [reflexivity|]. split.
    - rewrite A1. unfold run_applied. rewrite Hae. symmetry. apply app_nil_r.
    - exists k. split; [exact G1 | discriminate]. }
  cbv beta iota.
  set (y2 := emit (EApply cs (is_main_w y1) (get_unit_number (w_unit y1) "")) y1).
  assert (I2 : is_main_w y2 = is_main_w y) by exact I1.
  assert (A2 : applied y2 = (applied y ++ run_applied cs y)%list).
  { unfold y2. rewrite applied_apply by reflexivity. rewrite A1, I1, U1.
    unfold run_applied. now rewrite Hae. }
  assert (S2 : sig_in y2 = sig_in y) by exact S1.
  assert (C2 : gsk_clean y2 = true) by (rewrite (gsk_clean_dep _ _ S2); exact C).
  assert (G2 : get_signing_key y2 = (Ok k, y2)) by (apply (gsk_same y); [exact C2 | exact S2 | now rewrite G]).
  assert (K2 : w_container y2 = w_container y1) by reflexivity.
  clearbody y2.
  rewrite !bind_eq.
  destruct (is_main_w y2 && negb (truthy k)) eqn:B.
  - apply andb_true_iff in B. destruct B as [Bm Bk]. apply negb_true_iff in Bk.
    specialize (P1 Bk). subst y1.
    rewrite !bind_eq. unfold pull.
    destruct (dict_get (signing_key_path cs) (c_files (w_container y2))) as [f|] eqn:Ff.
    + cbv beta iota.
      assert (Fy : file_at (signing_key_path cs) y = Some f) by (unfold file_at; rewrite <- K2; exact Ff).
      assert (Bf : blocked_on_key cs k y = false)
        by (unfold blocked_on_key; rewrite Fy; apply andb_false_r).
      rewrite Bf.
      destruct (set_signing_key_spec (rstrip f) y2 C2) as [R3 [C3 D3]].
      pose proof (applied_set_signing_key (rstrip f) y2) as A3.
      pose proof (container_set_signing_key (rstrip f) y2) as K3.
      destruct (set_signing_key (rstrip f) y2) as [r3 y3] eqn:E3. simpl in R3, C3, D3, A3, K3.
      subst r3. cbv beta iota. rewrite !bind_eq. cbv beta iota.
      destruct (w_leader y3); cbv beta iota; unfold update_matrix_auth_integration, modify, ret;
        cbn [fst snd];
        match goal with |- context [get_signing_key ?y4] =>
          assert (A4 : applied y4 = applied y3)
            by (reflexivity || (rewrite applied_emit by reflexivity; reflexivity));
          assert (S4 : sig_in y4 = sig_in y3) by reflexivity;
          assert (C4 : gsk_clean y4 = true) by exact C3;
          assert (F4 : file_at (signing_key_path cs) y4 = Some f)
            by (unfold file_at; simpl; rewrite K3; exact Ff);
          assert (B4 : forall k2, blocked_on_key cs k2 y4 = false)
            by (intros k2; unfold blocked_on_key; rewrite F4; apply andb_false_r);
          (split; [reflexivity | split; [transitivity (applied y3); [exact A4 | rewrite A3; exact A2] |]]);
          destruct D3 as [S3 | [_ G3]];
          [ exists k; split; [apply (gsk_same y2); [exact C4 | congruence | now rewrite G2] |
                              intros _; now rewrite B4]
          | exists (Some (rstrip f)); split; [apply (gsk_same y3); [exact C4 | exact S4 | exact G3] |
                              intros _; now rewrite B4] ]
        end.
    + cbv beta iota. cbn [fst snd].
      assert (Fy : file_at (signing_key_path cs) y = None) by (unfold file_at; rewrite <- K2; exact Ff).
      assert (Bt : blocked_on_key cs k y = true)
        by (unfold blocked_on_key; rewrite Fy, <- I2, Bm, Bk; reflexivity).
      rewrite Bt. split; [reflexivity | split; [exact A2|]].
      exists k. split; [exact G2|]. intros _. rewrite <- Bt. apply blocked_on_key_dep; [exact I2|].
      unfold file_at. now rewrite K2.
  - cbv beta iota. unfold ret. cbv beta iota. rewrite !bind_eq. cbv beta iota.
    assert (Bf : blocked_on_key cs k y = false)
      by (unfold blocked_on_key; rewrite <- I2, B; reflexivity).
    rewrite Bf.
    destruct (w_leader y2); cbv beta iota; unfold update_matrix_auth_integration, modify, ret;
      cbn [fst snd];
      match goal with |- context [get_signing_key ?y4] =>
        assert (A4 : applied y4 = applied y2)
          by (reflexivity || (rewrite applied_emit by reflexivity; reflexivity));
        assert (S4 : sig_in y4 = sig_in y2) by reflexivity;
        assert (C4 : gsk_clean y4 = true) by exact C2;
        assert (I4 : is_main_w y4 = is_main_w y2) by reflexivity;
        (split; [reflexivity | split; [transitivity (applied y2); [exact A4 | exact A2] |]]);
        exists k; split; [apply (gsk_same y2); [exact C4 | exact S4 | now rewrite G2] |]
      end;
      intros _; unfold blocked_on_key; rewrite ?I4, B; reflexivity.
Qed.

Lemma rw_raise (cs : CharmState) (x : World) (e : Exn) :
  c_can_connect (w_container x) = true -> fst (get_signing_key x) = Raise e ->
  reconcile_workload cs x = (Raise e, snd (set_status (Maintenance "Configuring Synapse") x)).
Proof.
  intros Hc Hg. unfold reconcile_workload. rewrite bind_eq. unfold gets. cbv beta iota.
  rewrite Hc. cbn [negb].
  set (x0 := snd (set_status (Maintenance "Configuring Synapse") x)).
  rewrite bind_eq. change (set_status (Maintenance "Configuring Synapse") x) with (Ok tt, x0).
  cbv beta iota.
  assert (G0 : fst (get_signing_key x0) = Raise e) by (rewrite <- Hg; apply gsk_fst_dep; reflexivity).
  destruct (get_signing_key x0) as [r y] eqn:E. simpl in G0. subst r.
  destruct (gsk_raise _ _ _ E) as [-> ->].
  rewrite bind_eq. unfold try_apply_errors, reconcile_body. rewrite bind_eq, E. reflexivity.
Qed.

Lemma rw_ok (cs : CharmState) (x : World) (k1 : option string) :
  c_can_connect (w_container x) = true -> fst (get_signing_key x) = Ok k1 ->
  fst (reconcile_workload cs x) = Ok tt /\
  w_status (snd (reconcile_workload cs x)) = run_status cs k1 x /\
  applied (snd (reconcile_workload cs x)) = (applied x ++ run_applied cs x)%list /\
  exists k2, fst (get_signing_key (snd (reconcile_workload cs x))) = Ok k2 /\
    (c_apply_error (w_container x) = None ->
     blocked_on_key cs k2 (snd (reconcile_workload cs x)) = blocked_on_key cs k1 x).
Proof.
  intros Hc Hg. unfold reconcile_workload. rewrite bind_eq. unfold gets. cbv beta iota.
  rewrite Hc. cbn [negb].
  set (x0 := snd (set_status (Maintenance "Configuring Synapse") x)).
  rewrite bind_eq. change (set_status (Maintenance "Configuring Synapse") x) with (Ok tt, x0).
  cbv beta iota.
  assert (G0 : fst (get_signing_key x0) = Ok k1) by (rewrite <- Hg; apply gsk_fst_dep; reflexivity).
  assert (Ax0 : applied x0 = applied x) by apply applied_set_status.
  pose proof (status_get_signing_key x0) as St.
  pose proof (flags_get_signing_key x0) as Fl.
  pose proof (main_get_signing_key x0) as Mn.
  pose proof (stable_get_signing_key x0) as Tb.
  pose proof (applied_get_signing_key x0) as Ap.
  pose proof (container_get_signing_key x0) as Ct.
  destruct (get_signing_key x0) as [r y] eqn:E. simpl in G0, St, Fl, Mn, Tb, Ap, Ct. subst r.
  pose proof (gsk_idem _ _ _ E) as Gy.
  rewrite bind_eq. unfold try_apply_errors, reconcile_body. rewrite (bind_eq get_signing_key _ x0), E.
  cbv beta iota.
  destruct (body_spec cs k1 y Gy) as [Fb [Ab [k2 [G2 B2]]]].
  pose proof (status_reconcile_body_after_key cs k1 y) as Sb.
  pose proof (flags_reconcile_body_after_key cs k1 y) as Flb.
  destruct (reconcile_body_after_key cs k1 y) as [rb yb] eqn:Eb. simpl in Fb, Ab, G2, B2, Sb, Flb.
  assert (Uy : w_unit y = w_unit x) by (apply stable_fields in Tb; tauto).
  assert (Iy : is_main_w y = is_main_w x) by (apply is_main_w_dep; [exact Mn | exact Uy]).
  assert (AEy : c_apply_error (w_container y) = c_apply_error (w_container x))
    by (unfold flags in Fl; simpl in Fl; congruence).
  assert (BKy : blocked_on_key cs k1 y = blocked_on_key cs k1 x).
  { apply blocked_on_key_dep; [exact Iy|]. unfold file_at. now rewrite Ct. }
  assert (RA : run_applied cs y = run_applied cs x) by (apply run_applied_dep; [exact Fl | exact Iy | exact Uy]).
  rewrite Ap, Ax0, RA in Ab.
  assert (Fyb : flags yb = flags x) by (rewrite Flb; exact Fl).
  rewrite AEy in Fb, B2.
  destruct (c_apply_error (w_container x)) as [m|] eqn:Hae.
  - subst rb. cbv beta iota. unfold set_status, modify. cbn [fst snd].
    split; [reflexivity|]. split; [unfold run_status; now rewrite Hae|]. split.
    + rewrite applied_emit by reflexivity. exact Ab.
    + exists k2. split; [|discriminate].
      transitivity (fst (get_signing_key yb)); [apply gsk_fst_dep; reflexivity | now rewrite G2].
  - rewrite BKy in Fb. destruct (blocked_on_key cs k1 x) eqn:Bx; subst rb; cbv beta iota.
    + unfold set_status, modify. cbn [fst snd].
      split; [reflexivity|]. split; [unfold run_status; now rewrite Hae, Bx|]. split.
      * rewrite applied_emit by reflexivity. exact Ab.
      * exists k2. split; [transitivity (fst (get_signing_key yb)); [apply gsk_fst_dep; reflexivity | now rewrite G2]|].
        intros H. rewrite <- BKy, <- (B2 H). apply blocked_on_key_dep; reflexivity.
    + unfold restart_nginx, modify. rewrite !bind_eq. cbv beta iota.
      set (y5 := emit (ERestartNginx (get_main_unit_address yb)) yb).
      rewrite (set_unit_status_eq y5) by (intros m; unfold y5; simpl; rewrite Sb, St; discriminate).
      unfold set_status, modify. cbn [fst snd].
      split; [reflexivity|]. split.
      * unfold run_status. rewrite Hae, Bx. simpl. apply unit_status_of_flags. exact Fyb.
      * split.
        -- transitivity (applied y5); [rewrite applied_emit by reflexivity; reflexivity|].
           unfold y5. rewrite applied_emit by reflexivity. exact Ab.
        -- exists k2. split; [transitivity (fst (get_signing_key yb)); [apply gsk_fst_dep; reflexivity | now rewrite G2]|].
           intros H. rewrite <- BKy, <- (B2 H). apply blocked_on_key_dep; reflexivity.
Qed.

Lemma rw_unreachable (cs : CharmState) (x : World) :
  c_can_connect (w_container x) = false ->
  reconcile_workload cs x = set_status (Maintenance "Waiting for Synapse pebble") x.
Proof. intros H. unfold reconcile_workload, bind, gets. cbv beta iota. now rewrite H. Qed.

Lemma bootstrap_noop (w : World) :
  (main_of w <> None \/ w_leader w && peer_exists w = false) -> bootstrap_main w = (Ok tt, w).
Proof.
  intros H. unfold bootstrap_main, get_main_unit, bind, gets. cbv beta iota.
  destruct (main_of w) eqn:Hm; [reflexivity|].
  destruct H as [H|H]; [congruence|].
  destruct (w_leader w) eqn:L; [|reflexivity].
  unfold set_main_unit, bind, gets. cbv beta iota. unfold peer_exists in H.
  destruct (w_peer w); [discriminate | reflexivity].
Qed.

Lemma workload_twice (cs : CharmState) (x : World) :
  let x1 := snd (reconcile_workload cs x) in
  fst (reconcile_workload cs x1) = fst (reconcile_workload cs x) /\
  w_status (snd (reconcile_workload cs x1)) = w_status x1 /\
  exists A, applied x1 = (applied x ++ A)%list /\
            applied (snd (reconcile_workload cs x1)) = (applied x1 ++ A)%list.
Proof.
  intros x1.
  pose proof (flags_reconcile_workload cs x) as Fx.
  pose proof (main_reconcile_workload cs x) as Mx.
  pose proof (stable_reconcile_workload cs x) as Tx.
  fold x1 in Fx, Mx, Tx.
  assert (Cc : c_can_connect (w_container x1) = c_can_connect (w_container x))
    by (unfold flags in Fx; congruence).
  destruct (c_can_connect (w_container x)) eqn:Hc.
  - destruct (fst (get_signing_key x)) as [k1|e] eqn:Hg.
    + destruct (rw_ok cs x k1 Hc Hg) as [R1 [S1 [A1 [k2 [G2 B2]]]]].
      fold x1 in R1, S1, A1, G2, B2.
      destruct (rw_ok cs x1 k2 Cc G2) as [R2 [S2 [A2 _]]].
      assert (U : w_unit x1 = w_unit x) by (apply stable_fields in Tx; tauto).
      assert (I : is_main_w x1 = is_main_w x) by (apply is_main_w_dep; [exact Mx | exact U]).
      assert (AE : c_apply_error (w_container x1) = c_apply_error (w_container x))
        by (unfold flags in Fx; congruence).
      split; [rewrite R2, R1; reflexivity|]. split.
      * rewrite S2, S1. unfold run_status. rewrite AE.
        destruct (c_apply_error (w_container x)) eqn:Hae; [reflexivity|].
        rewrite (B2 eq_refl), (unit_status_of_flags x1 x Fx). reflexivity.
      * exists (run_applied cs x). split; [exact A1|]. rewrite A2. f_equal.
        apply run_applied_dep; assumption.
    + pose proof (rw_raise cs x e Hc Hg) as R1.
      assert (X1 : x1 = snd (set_status (Maintenance "Configuring Synapse") x))
        by (unfold x1; now rewrite R1).
      assert (Hg1 : fst (get_signing_key x1) = Raise e)
        by (rewrite X1, <- Hg; apply gsk_fst_dep; reflexivity).
      rewrite (rw_raise cs x1 e Cc Hg1), R1. cbn [fst snd].
      split; [reflexivity|]. split; [rewrite X1; reflexivity|].
      exists []. rewrite !app_nil_r. split; [rewrite X1|]; apply applied_set_status.
  - assert (X1 : x1 = snd (set_status (Maintenance "Waiting for Synapse pebble") x))
      by (unfold x1; now rewrite rw_unreachable).
    rewrite (rw_unreachable cs x1 Cc), (rw_unreachable cs x Hc).
    split; [reflexivity|]. split; [rewrite X1; reflexivity|].
    exists []. rewrite !app_nil_r. split; [rewrite X1|]; apply applied_set_status.
Qed.

(** ** Secrets: only [add_secret] creates one *)

Lemma secrets_app_data_set k v : preserves w_secrets (app_data_set k v).
Proof. intros w. unfold app_data_set. destruct (w_peer w); [destruct (negb (w_leader w))|]; reflexivity. Qed.
Lemma secrets_app_data_del k : preserves w_secrets (app_data_del k).
Proof. intros w. unfold app_data_del. destruct (w_peer w); [destruct (negb (w_leader w))|]; reflexivity. Qed.
Lemma secrets_set_status s : preserves w_secrets (set_status s).
Proof. intros w. reflexivity. Qed.
Lemma secrets_push p c : preserves w_secrets (push p c).
Proof. intros w. reflexivity. Qed.
Lemma secrets_pull p : preserves w_secrets (pull p).
Proof. intros w. unfold pull. now destruct (dict_get _ _). Qed.
Lemma secrets_pebble_reconcile cs b n : preserves w_secrets (pebble_reconcile cs b n).
Proof. intros w. unfold pebble_reconcile. now destruct (c_apply_error _). Qed.
Lemma secrets_restart_nginx a : preserves w_secrets (restart_nginx a).
Proof. intros w. reflexivity. Qed.
Lemma secrets_update_matrix_auth cs : preserves w_secrets (update_matrix_auth_integration cs).
Proof. intros w. reflexivity. Qed.
#[export] Hint Resolve secrets_app_data_set secrets_app_data_del secrets_set_status secrets_push
  secrets_pull secrets_pebble_reconcile secrets_restart_nginx secrets_update_matrix_auth : pres.
Lemma secrets_get_signing_key : preserves w_secrets get_signing_key.
Proof. unfold get_signing_key. pres. Qed.
Lemma secrets_set_main_unit u : preserves w_secrets (set_main_unit u).
Proof. unfold set_main_unit. pres. Qed.
Lemma secrets_push_signing_key p k : preserves w_secrets (push_signing_key p k).
Proof. unfold push_signing_key. pres. Qed.
#[export] Hint Resolve secrets_get_signing_key secrets_set_main_unit secrets_push_signing_key : pres.
Lemma secrets_set_unit_status : preserves w_secrets set_unit_status.
Proof. unfold set_unit_status. pres. Qed.
Lemma secrets_bootstrap_main : preserves w_secrets bootstrap_main.
Proof. unfold bootstrap_main. pres. Qed.
#[export] Hint Resolve secrets_set_unit_status secrets_bootstrap_main : pres.

Lemma secrets_body_not_main (cs : CharmState) (k : option string) (y : World) :
  is_main_w y = false ->
  w_secrets (snd (reconcile_body_after_key cs k y)) = w_secrets y.
Proof.
  intros Hm. unfold reconcile_body_after_key. cbv zeta.
  rewrite bind_eq, push_signing_key_ok.
  set (y1 := snd (push_signing_key (signing_key_path cs) k y)).
  assert (S1 : w_secrets y1 = w_secrets y) by apply secrets_push_signing_key.
  assert (M1 : is_main_w y1 = false).
  { rewrite <- Hm. apply is_main_w_dep; [apply main_push_signing_key|].
    pose proof (stable_push_signing_key (signing_key_path cs) k y) as T.
    apply stable_fields in T. tauto. }
  clearbody y1. cbv beta iota.
  unfold is_main, gets. rewrite !bind_eq. cbv beta iota.
  pose proof (secrets_pebble_reconcile cs (is_main_w y1) (get_unit_number (w_unit y1) "") y1) as S2.
  pose proof (main_pebble_reconcile cs (is_main_w y1) (get_unit_number (w_unit y1) "") y1) as M2.
  pose proof (stable_pebble_reconcile cs (is_main_w y1) (get_unit_number (w_unit y1) "") y1) as T2.
  destruct (pebble_reconcile cs (is_main_w y1) (get_unit_number (w_unit y1) "") y1)
    as [[[]|e] y2] eqn:E2; cbn [fst snd] in S2, M2, T2 |- *; [|congruence].
  assert (I2 : is_main_w y2 = false).
  { rewrite <- M1. apply is_main_w_dep; [exact M2|]. apply stable_fields in T2. tauto. }
  rewrite !bind_eq. cbv beta iota. rewrite I2. cbn [andb]. unfold ret. cbv beta iota.
  rewrite !bind_eq. cbv beta iota. rewrite <- S1, <- S2.
  destruct (w_leader y2); [apply secrets_update_matrix_auth | reflexivity].
Qed.

Lemma secrets_reconcile_workload_not_main (cs : CharmState) (x : World) :
  is_main_w x = false -> w_secrets (snd (reconcile_workload cs x)) = w_secrets x.
Proof.
  intros Hm. unfold reconcile_workload. rewrite bind_eq. unfold gets. cbv beta iota.
  destruct (negb (c_can_connect (w_container x))); [reflexivity|].
  rewrite bind_eq.
  set (x0 := snd (set_status (Maintenance "Configuring Synapse") x)).
  change (set_status (Maintenance "Configuring Synapse") x) with (Ok tt, x0). cbv beta iota.
  assert (I0 : is_main_w x0 = false) by exact Hm.
  assert (S0 : w_secrets x0 = w_secrets x) by reflexivity.
  clearbody x0.
  rewrite bind_eq. unfold try_apply_errors, reconcile_body. rewrite bind_eq.
  pose proof (secrets_get_signing_key x0) as S1.
  pose proof (main_get_signing_key x0) as M1.
  pose proof (stable_get_signing_key x0) as T1.
  destruct (get_signing_key x0) as [[k|e] y] eqn:E; cbn [fst snd] in S1, M1, T1.
  2: { destruct e; cbn [fst snd]; try congruence;
       rewrite <- S0, <- S1; apply secrets_set_status. }
  assert (Iy : is_main_w y = false).
  { rewrite <- I0. apply is_main_w_dep; [exact M1|]. apply stable_fields in T1. tauto. }
  pose proof (secrets_body_not_main cs k y Iy) as S2.
  destruct (reconcile_body_after_key cs k y) as [[[]|e] y2] eqn:E2; cbn [fst snd] in S2.
  - cbv beta iota. rewrite !bind_eq. unfold restart_nginx, modify. cbv beta iota.
    rewrite secrets_set_unit_status. cbn [w_secrets emit]. congruence.
  - destruct e; cbn [fst snd]; try congruence;
      rewrite <- S0, <- S1, <- S2; apply secrets_set_status.
Qed.

Lemma sig_body_truthy (cs : CharmState) (k : option string) :
  truthy k = true -> preserves sig_in (reconcile_body_after_key cs k).
Proof.
  intros Hk. unfold reconcile_body_after_key. cbv zeta. rewrite Hk.
  apply preserves_bind; [pres|intros ?; cbv beta].
  apply preserves_bind; [pres|intros ?; cbv beta].
  apply preserves_bind; [pres|intros ?; cbv beta].
  apply preserves_bind; [pres|intros ?; cbv beta].
  apply preserves_bind; [pres|intros im2; cbv beta].
  apply preserves_bind; [|intros ?; cbv beta; pres].
  change (negb true) with false. rewrite andb_false_r. apply preserves_ret.
Qed.

Lemma sig_reconcile_workload_resolved (cs : CharmState) (x : World) (k : string) :
  get_signing_key x = (Ok (Some k), x) -> k <> "" ->
  sig_in (snd (reconcile_workload cs x)) = sig_in x.
Proof.
  intros G Hk.
  assert (Tk : truthy (Some k) = true)
    by (unfold truthy; apply negb_true_iff, String.eqb_neq, Hk).
  assert (C : gsk_clean x = true) by exact (gsk_ok_clean _ _ _ G).
  unfold reconcile_workload. rewrite bind_eq. unfold gets. cbv beta iota.
  destruct (negb (c_can_connect (w_container x))); [apply sig_set_status|].
  rewrite bind_eq.
  set (x0 := snd (set_status (Maintenance "Configuring Synapse") x)).
  change (set_status (Maintenance "Configuring Synapse") x) with (Ok tt, x0). cbv beta iota.
  assert (S0 : sig_in x0 = sig_in x) by reflexivity.
  assert (G0 : get_signing_key x0 = (Ok (Some k), x0)).
  { apply (gsk_same x); [rewrite (gsk_clean_dep _ _ S0); exact C | exact S0 | now rewrite G]. }
  clearbody x0.
  rewrite bind_eq. unfold try_apply_errors, reconcile_body. rewrite bind_eq, G0. cbv beta iota.
  pose proof (sig_body_truthy cs (Some k) Tk x0) as S2.
  destruct (reconcile_body_after_key cs (Some k) x0) as [[[]|e] y2] eqn:E2; cbn [fst snd] in S2.
  - cbv beta iota. rewrite !bind_eq. unfold restart_nginx, modify. cbv beta iota.
    rewrite sig_set_unit_status. cbn [emit]. unfold sig_in, data_get, peer_exists in *. simpl. congruence.
  - destruct e; cbn [fst snd]; try congruence; rewrite <- S0, <- S2; apply sig_set_status.
Qed.

Lemma gsk_resolved (w : World) (sid k : string) :
  data_get SECRET_SIGNING_ID w = Some sid -> sid <> "" ->
  dict_get sid (w_secrets w) = Some (Some k) ->
  get_signing_key w = (Ok (Some k), w).
Proof.
  unfold data_get, get_signing_key, bind, gets. cbv beta iota. intros H1 H2 H3.
  destruct (w_peer w) as [p|]; [|discriminate]. rewrite H1.
  apply String.eqb_neq in H2. rewrite H2, H3. reflexivity.
Qed.

Lemma gsk_some (y : World) (s : string) :
  fst (get_signing_key y) = Ok (Some s) -> get_signing_key y = (Ok (Some s), y).
Proof.
  unfold get_signing_key, bind, gets. cbv beta iota.
  destruct (w_peer y) as [p|] eqn:P; [|discriminate].
  destruct (dict_get SECRET_SIGNING_ID (pr_app_data p)) as [sid|]; [|discriminate].
  destruct (String.eqb sid ""); [discriminate|].
  destruct (dict_get sid (w_secrets y)) as [c|].
  - unfold ret. cbn [fst]. intros H. inversion H. reflexivity.
  - unfold app_data_del. rewrite P. destruct (negb (w_leader y)); discriminate.
Qed.

Lemma reconcile_resolved (cs : CharmState) (w : World) (k : string) :
  get_signing_key w = (Ok (Some k), w) -> k <> "" ->
  sig_in (snd (reconcile cs w)) = sig_in w /\
  get_signing_key (snd (reconcile cs w)) = (Ok (Some k), snd (reconcile cs w)).
Proof.
  intros G Hk. assert (C : gsk_clean w = true) by exact (gsk_ok_clean _ _ _ G).
  unfold reconcile. rewrite (bind_ok _ _ _ _ _ (bootstrap_main_ok w)). cbv beta.
  set (wb := snd (bootstrap_main w)).
  assert (Sb : sig_in wb = sig_in w) by apply sig_bootstrap_main.
  assert (Gb : get_signing_key wb = (Ok (Some k), wb)).
  { apply (gsk_same w); [rewrite (gsk_clean_dep _ _ Sb); exact C | exact Sb | now rewrite G]. }
  pose proof (sig_reconcile_workload_resolved cs wb k Gb Hk) as S1.
  split; [congruence|].
  apply (gsk_same w); [rewrite (gsk_clean_dep _ _ (eq_trans S1 Sb)); exact C | congruence | now rewrite G].
Qed.

Lemma secrets_reconcile_not_main (cs : CharmState) (w : World) :
  bootstrapped_main w <> Some (w_unit w) -> w_secrets (snd (reconcile cs w)) = w_secrets w.
Proof.
  intros Hb.
  assert (N : bootstrap_main w = (Ok tt, w)).
  { apply bootstrap_noop. unfold bootstrapped_main in Hb.
    destruct (main_of w) as [m|]; [left; discriminate|right].
    destruct (w_leader w && peer_exists w); [congruence | reflexivity]. }
  unfold reconcile. rewrite (bind_ok _ _ _ _ _ N). cbv beta.
  apply secrets_reconcile_workload_not_main.
  unfold is_main_w. unfold bootstrapped_main in Hb.
  destruct (main_of w) as [m|]; [|reflexivity].
  apply String.eqb_neq. congruence.
Qed.

Lemma set_signing_key_unchanged (s : string) (y : World) :
  fst (get_signing_key y) = Ok (Some s) -> set_signing_key s y = (Ok tt, y).
Proof.
  intros G. apply gsk_some in G. unfold set_signing_key. rewrite bind_eq. unfold gets. cbv beta iota.
  destruct (w_peer y); [|reflexivity].
  rewrite bind_eq, G. cbv beta iota. unfold str_eq_opt. rewrite String.eqb_refl. reflexivity.
Qed.

Lemma sig_in_secrets (a b : World) : sig_in a = sig_in b -> w_secrets a = w_secrets b.
Proof. unfold sig_in. intros E. injection E. intros. assumption. Qed.

(* ================================================================== *)
(** * Claims *)

(** C1 (code_bug): with application [x-1y], units [x-1y/0] (main),
    [x-1y/1] and [x-1y/2], [re.search(r"-(\d+)")] reads id [1] from every
    address, so the two workers share the key [worker1]: three entries
    instead of [K + 1 = 4]. *)
Theorem instance_map_hyphen_digit_app :
  length (peer_addresses w_hyphen_digit_app) = 3 /\
  instance_map w_hyphen_digit_app =
    Ok (Some [("main", mkHost "x-1y-0.x-1y-endpoints" 8035%Z);
              ("federationsender1", mkHost "x-1y-0.x-1y-endpoints" 8034%Z);
              ("worker1", mkHost "x-1y-2.x-1y-endpoints" 8034%Z)]).
Proof. split; vm_compute; reflexivity. Qed.

(** C2 (amended): [get_unit_number] returns [N] for [app/N] and for
    [app-N] followed by nothing or by [.suffix]; for a name without
    digits it returns a string without digits, it does not fail. *)
Theorem get_unit_number_amended (self_name app n sfx : string) :
  has_char "/" app = false -> has_char "." app = false -> all_digits n = true ->
  (sfx = "" \/ exists r, sfx = String "." r) ->
  get_unit_number self_name (app ++ String "/" n) = n /\
  get_unit_number self_name (app ++ String "-" (n ++ sfx)) = n /\
  (forall name, name <> "" -> has_digit name = false ->
     has_digit (get_unit_number self_name name) = false).
Proof.
  intros Hs Hd Hn Hsfx. split; [|split].
  - now apply get_unit_number_slash.
  - now apply get_unit_number_dash.
  - apply get_unit_number_no_digit.
Qed.

Lemma get_unit_number_amended_witness :
  get_unit_number "synapse/0" "synapse/3" = "3" /\
  get_unit_number "synapse/0" "synapse-12.synapse-endpoints" = "12".
Proof.
  destruct (get_unit_number_amended "synapse/0" "synapse" "12" ".synapse-endpoints")
    as [_ [H2 _]]; [reflexivity | reflexivity | reflexivity | right; eexists; reflexivity |].
  destruct (get_unit_number_amended "synapse/0" "synapse" "3" "")
    as [H1 _]; [reflexivity | reflexivity | reflexivity | left; reflexivity |].
  split; [exact H1 | exact H2].
Defined.

(** C2 (counterexample): the name [synapse] has no digits and
    [get_unit_number] returns it as the unit number. *)
Lemma get_unit_number_no_digits_value :
  has_digit "synapse" = false /\ get_unit_number "synapse/0" "synapse" = "synapse".
Proof. split; reflexivity. Qed.

(** C3 (amended): when the peer group is not of size one, an address
    other than the main address with no [-<digits>] in it makes
    [instance_map] raise, so no instance map is built. *)
Theorem instance_map_malformed_raises (w : World) :
  w_planned w <> 1 ->
  (exists a, In a (peer_addresses w) /\ a <> get_main_unit_address w /\
             search_dash_digits a = None) ->
  instance_map w = Raise AttributeError.
Proof.
  intros Hp Ha. unfold instance_map. apply Nat.eqb_neq in Hp. rewrite Hp.
  now rewrite add_workers_raise.
Qed.

Lemma instance_map_malformed_raises_witness :
  instance_map (mkWorld "synapse/0" "synapse" true 2
                  (Some (mkPeerRel ["synapse"] [(MAIN_UNIT_ID, "synapse/0")]))
                  [] 0 ctr_ready Active []) = Raise AttributeError.
Proof.
  apply instance_map_malformed_raises; [discriminate|].
  exists "synapse.synapse-endpoints". vm_compute. split; [tauto | split; [discriminate | reflexivity]].
Defined.

(** C3 (counterexample): the main address [synapse.synapse-endpoints]
    has no id, yet [instance_map] builds a map from a peer list holding it. *)
Lemma instance_map_main_without_id :
  In "synapse.synapse-endpoints" (peer_addresses w_main_without_id) /\
  search_dash_digits "synapse.synapse-endpoints" = None /\
  instance_map w_main_without_id =
    Ok (Some [("main", mkHost "synapse.synapse-endpoints" 8035%Z);
              ("federationsender1", mkHost "synapse.synapse-endpoints" 8034%Z);
              ("worker0", mkHost "synapse-0.synapse-endpoints" 8034%Z)]).
Proof. vm_compute. split; [tauto | split; reflexivity]. Qed.

(** C4 (counterexample): the departing [synapse/0] is not the recorded
    main (none is recorded), yet the leader [synapse/1] becomes main:
    the [reconcile] run by the handler records it. *)
Lemma on_relation_departed_records_main :
  main_of w_no_main_leader = None /\
  main_of (snd (on_relation_departed cs0 (Some "synapse/0") w_no_main_leader)) = Some "synapse/1".
Proof. vm_compute. split; reflexivity. Qed.

(** C5 (counterexample): before the peer relation exists, a leader
    handling [leader_elected] records no main unit. *)
Lemma on_leader_elected_without_peer_relation :
  w_leader w_no_peer_leader = true /\
  main_of (snd (on_leader_elected cs0 w_no_peer_leader)) = None.
Proof. vm_compute. split; reflexivity. Qed.

(** C9: with no main unit recorded (no peer relation, or no
    [main_unit_id] key), [get_main_unit_address] is the observing
    unit's own address; two units [app/N1] and [app/N2] with different
    numbers then compute different main addresses. *)
Theorem get_main_unit_address_fallback :
  (forall w, main_of w = None ->
     get_main_unit_address w = replace_char "/" "-" (w_unit w) ++ "." ++ w_app w ++ "-endpoints") /\
  (forall w1 w2 app n1 n2,
     main_of w1 = None -> main_of w2 = None -> w_app w1 = app -> w_app w2 = app ->
     w_unit w1 = app ++ String "/" n1 -> w_unit w2 = app ++ String "/" n2 ->
     all_digits n1 = true -> all_digits n2 = true -> n1 <> n2 ->
     get_main_unit_address w1 <> get_main_unit_address w2).
Proof.
  split.
  - intros w Hm. unfold get_main_unit_address. now rewrite Hm.
  - intros w1 w2 app n1 n2 H1 H2 A1 A2 U1 U2 D1 D2 Hne E.
    unfold get_main_unit_address in E. rewrite H1, H2, A1, A2, U1, U2 in E.
    apply Hne. exact (unit_address_digits_inj app n1 n2 D1 D2 E).
Qed.

Lemma get_main_unit_address_fallback_witness :
  get_main_unit_address (mkWorld "synapse/0" "synapse" false 2 None [] 0 ctr_ready Active [])
    = "synapse-0.synapse-endpoints" /\
  get_main_unit_address (mkWorld "synapse/0" "synapse" false 2 None [] 0 ctr_ready Active [])
    <> get_main_unit_address (mkWorld "synapse/1" "synapse" false 2 None [] 0 ctr_ready Active []).
Proof.
  destruct get_main_unit_address_fallback as [H1 H2]. split.
  - apply H1. reflexivity.
  - apply (H2 _ _ "synapse" "0" "1"); try reflexivity. discriminate.
Defined.

(** C4 (amended): handling the departure of [d] records the observer
    as main when [d] is the recorded main and the observer is the leader,
    leaves a recorded main in every other case, and, when no main is
    recorded, the [reconcile] run by the handler records the observer if
    it is the leader and the peer relation exists. The departure of the
    observer itself changes nothing. *)
Theorem on_relation_departed_main_designation (cs : CharmState) (d : string) (w : World) :
  w_unit w <> "" ->
  main_of (snd (on_relation_departed cs (Some d) w)) =
    if String.eqb d (w_unit w) then main_of w
    else match main_of w with
         | Some m => if String.eqb d m && w_leader w then Some (w_unit w) else Some m
         | None => if w_leader w && peer_exists w then Some (w_unit w) else None
         end.
Proof.
  intros Hu. unfold on_relation_departed, get_main_unit, bind, gets. cbv beta iota.
  destruct (String.eqb d (w_unit w)) eqn:Ed; [reflexivity|].
  destruct (main_of w) as [m|] eqn:Hm; unfold str_eq_opt.
  - destruct (String.eqb d m) eqn:Edm, (w_leader w) eqn:Hl; cbn [andb].
    + exact (set_main_unit_then_reconcile cs w Hl Hu (main_of_some_peer w m Hm)).
    + unfold ret; cbv beta iota. rewrite reconcile_main by exact Hu. unfold bootstrapped_main. now rewrite Hm.
    + unfold ret; cbv beta iota. rewrite reconcile_main by exact Hu. unfold bootstrapped_main. now rewrite Hm.
    + unfold ret; cbv beta iota. rewrite reconcile_main by exact Hu. unfold bootstrapped_main. now rewrite Hm.
  - cbn [andb]. unfold ret; cbv beta iota. rewrite reconcile_main by exact Hu. unfold bootstrapped_main. now rewrite Hm.
Qed.

(** C5 (amended): a unit that is not the leader changes nothing on
    [leader_elected]; a leader with a peer relation is the recorded main
    after the event, and still after handling it a second time. Without a
    peer relation nothing is recorded. *)
Theorem on_leader_elected_main_designation (cs : CharmState) (w : World) :
  w_unit w <> "" ->
  (w_leader w = false -> on_leader_elected cs w = (Ok tt, w)) /\
  (w_leader w = true -> peer_exists w = true ->
     main_of (snd (on_leader_elected cs w)) = Some (w_unit w) /\
     main_of (snd (on_leader_elected cs (snd (on_leader_elected cs w)))) = Some (w_unit w)).
Proof.
  intros Hu. split.
  - intros Hl. unfold on_leader_elected, bind, gets. now rewrite Hl.
  - intros Hl Hp.
    assert (H1 : main_of (snd (on_leader_elected cs w)) = Some (w_unit w)).
    { rewrite on_leader_elected_leader by exact Hl.
      exact (set_main_unit_then_reconcile cs w Hl Hu Hp). }
    split; [exact H1|].
    destruct (unit_after _ _ w (stable_on_leader_elected cs)) as [U [L P]].
    set (w1 := snd (on_leader_elected cs w)) in *.
    rewrite on_leader_elected_leader by congruence.
    rewrite <- U. apply set_main_unit_then_reconcile; congruence.
Qed.

Lemma on_relation_departed_main_designation_witness :
  main_of (snd (on_relation_departed cs0 (Some "synapse/0") w_no_main_leader)) = Some "synapse/1".
Proof.
  rewrite (on_relation_departed_main_designation cs0 "synapse/0" w_no_main_leader ltac:(discriminate)).
  reflexivity.
Defined.

Lemma on_leader_elected_main_designation_witness :
  main_of (snd (on_leader_elected cs0 w_no_main_leader)) = Some "synapse/1" /\
  main_of (snd (on_leader_elected cs0 (snd (on_leader_elected cs0 w_no_main_leader)))) = Some "synapse/1".
Proof.
  destruct (on_leader_elected_main_designation cs0 w_no_main_leader ltac:(discriminate)) as [_ H].
  exact (H eq_refl eq_refl).
Defined.

(** C8 (amended): [_set_unit_status] leaves a [Blocked] status as it is;
    but the next [reconcile] replaces any status, [Blocked] included,
    by a maintenance status when the workload cannot be reached. *)
Theorem blocked_status_kept_within_run :
  (forall w msg, w_status w = Blocked msg -> set_unit_status w = (Ok tt, w)) /\
  (forall cs w, c_can_connect (w_container w) = false ->
     reconcile cs w = (Ok tt, snd (reconcile cs w)) /\
     w_status (snd (reconcile cs w)) = Maintenance "Waiting for Synapse pebble").
Proof.
  split.
  - intros w msg H. unfold set_unit_status, bind, gets. now rewrite H.
  - intros cs w Hc.
    assert (R : reconcile cs w =
                set_status (Maintenance "Waiting for Synapse pebble") (snd (bootstrap_main w))).
    { unfold reconcile. rewrite (bind_ok _ _ _ _ _ (bootstrap_main_ok w)).
      pose proof (container_bootstrap_main w) as E.
      unfold reconcile_workload, bind at 1, gets. rewrite E, Hc. reflexivity. }
    rewrite R. split; reflexivity.
Qed.

(** C8 (counterexample): a unit left [Blocked] by an earlier run becomes
    [Maintenance] after a [reconcile] that does not succeed. *)
Lemma blocked_superseded_by_unreachable :
  w_status w_blocked_unreachable = Blocked "/data/server.signing.key" /\
  w_status (snd (reconcile cs0 w_blocked_unreachable)) = Maintenance "Waiting for Synapse pebble".
Proof. vm_compute. split; reflexivity. Qed.

(** C10 (code bug): a unit that is not the leader, holding a reference
    to a secret that no longer exists, raises [RelationDataAccessError]
    from [set_signing_key]: [get_signing_key] deletes the reference from
    the application data bag without checking leadership. *)
Theorem set_signing_key_non_leader_raises :
  w_leader w_dangling_non_leader = false /\
  set_signing_key "key" w_dangling_non_leader = (Raise RelationDataAccessError, w_dangling_non_leader).
Proof. vm_compute. split; reflexivity. Qed.

(** C6 (amended): a published reference [sid] to a secret holding a
    non-empty key [k] is kept: neither one nor two runs of [reconcile]
    create a secret. A unit that is not the main unit after
    bootstrapping creates no secret in [reconcile], and
    [set_signing_key] changes nothing when its key equals the key the
    published reference resolves to. *)
Theorem signing_key_secret_kept (cs : CharmState) (w : World) (sid k : string) :
  data_get SECRET_SIGNING_ID w = Some sid -> sid <> "" ->
  dict_get sid (w_secrets w) = Some (Some k) -> k <> "" ->
  w_secrets (snd (reconcile cs w)) = w_secrets w /\
  w_secrets (snd (reconcile cs (snd (reconcile cs w)))) = w_secrets w /\
  (forall w', bootstrapped_main w' <> Some (w_unit w') ->
     w_secrets (snd (reconcile cs w')) = w_secrets w') /\
  (forall s y, fst (get_signing_key y) = Ok (Some s) -> set_signing_key s y = (Ok tt, y)).
Proof.
  intros H1 H2 H3 H4.
  pose proof (gsk_resolved w sid k H1 H2 H3) as G.
  destruct (reconcile_resolved cs w k G H4) as [S1 G1].
  destruct (reconcile_resolved cs _ k G1 H4) as [S2 _].
  split; [apply sig_in_secrets, S1|]. split; [apply sig_in_secrets; congruence|].
  split; [apply secrets_reconcile_not_main | apply set_signing_key_unchanged].
Qed.

Lemma signing_key_secret_kept_witness :
  w_secrets (snd (reconcile cs0 (snd (reconcile cs0 w_key_published)))) = w_secrets w_key_published.
Proof.
  destruct (signing_key_secret_kept cs0 w_key_published "secret:0" "key") as [_ [H _]];
    [reflexivity | discriminate | reflexivity | discriminate | exact H].
Defined.

(** C6 (counterexample): the published reference [secret:7] names no
    secret; [reconcile] on the leader main unit deletes it and creates
    the secret [secret:0] from the key file. *)
Lemma reconcile_replaces_dangling_reference :
  data_get SECRET_SIGNING_ID w_dangling_leader = Some "secret:7" /\
  w_secrets w_dangling_leader = [] /\
  w_secrets (snd (reconcile cs0 w_dangling_leader)) = [("secret:0", Some "key")] /\
  data_get SECRET_SIGNING_ID (snd (reconcile cs0 w_dangling_leader)) = Some "secret:0".
Proof. split; [|split; [|split]]; vm_compute; reflexivity. Qed.

(** C7 (amended): for a unit with a name, a second [reconcile] right
    after a first returns what the first returned, leaves the status the
    first left, and applies to the workload the same configurations as
    the first. *)
Theorem reconcile_twice (cs : CharmState) (w : World) :
  w_unit w <> "" ->
  let w1 := snd (reconcile cs w) in
  let w2 := snd (reconcile cs w1) in
  fst (reconcile cs w1) = fst (reconcile cs w) /\ w_status w2 = w_status w1 /\
  exists A, applied w1 = (applied w ++ A)%list /\ applied w2 = (applied w1 ++ A)%list.
Proof.
  intros Hu w1 w2.
  assert (R1 : reconcile cs w = reconcile_workload cs (snd (bootstrap_main w)))
    by (unfold reconcile; now rewrite (bind_ok _ _ _ _ _ (bootstrap_main_ok w))).
  assert (N : bootstrap_main w1 = (Ok tt, w1)).
  { apply bootstrap_noop. pose proof (reconcile_main cs w Hu) as Mw.
    destruct (unit_after _ _ w (stable_reconcile cs)) as [_ [L P]].
    fold w1 in Mw, L, P. unfold bootstrapped_main in Mw.
    destruct (main_of w) as [m|]; [left; congruence|].
    destruct (w_leader w && peer_exists w) eqn:LP; [left; congruence|].
    right. rewrite L, P. exact LP. }
  assert (R2 : reconcile cs w1 = reconcile_workload cs w1)
    by (unfold reconcile; now rewrite (bind_ok _ _ _ _ _ N)).
  set (wb := snd (bootstrap_main w)) in R1.
  assert (W1 : w1 = snd (reconcile_workload cs wb)) by (unfold w1; now rewrite R1).
  assert (Ab : applied wb = applied w) by apply applied_bootstrap_main.
  destruct (workload_twice cs wb) as [F [S [A [A1 A2]]]].
  unfold w2. rewrite R2, R1, W1. split; [exact F|]. split; [exact S|].
  exists A. rewrite <- Ab. split; assumption.
Qed.

Lemma reconcile_twice_witness :
  w_unit w_key_file_only <> "" /\
  w_status (snd (reconcile cs0 (snd (reconcile cs0 w_key_file_only)))) =
    w_status (snd (reconcile cs0 w_key_file_only)).
Proof.
  split; [discriminate|].
  destruct (reconcile_twice cs0 w_key_file_only) as [_ [H _]]; [discriminate | exact H].
Defined.

(** C7 (counterexample): the first [reconcile] on [w_key_file_only]
    publishes the key as a secret; the second pushes that key back to the
    workload, an effect the first run did not have, which rewrites the
    key file (its trailing newline is dropped). *)
Lemma reconcile_second_run_pushes_key :
  w_log w_key_file_only = [] /\
  w_log (snd (reconcile cs0 w_key_file_only)) =
    [EStatus (Maintenance "Configuring Synapse");
     EApply cs0 true "0";
     ECreateSecret "secret:0" "key";
     EAppDataSet SECRET_SIGNING_ID "secret:0";
     EMatrixAuth cs0;
     ERestartNginx "synapse-0.synapse-endpoints";
     EStatus Active] /\
  skipn 7 (w_log (snd (reconcile cs0 (snd (reconcile cs0 w_key_file_only))))) =
    [EStatus (Maintenance "Configuring Synapse");
     EPush "/data/server.signing.key" "key";
     EApply cs0 true "0";
     EMatrixAuth cs0;
     ERestartNginx "synapse-0.synapse-endpoints";
     EStatus Active] /\
  file_at "/data/server.signing.key" (snd (reconcile cs0 w_key_file_only)) =
    Some ("key" ++ String (ascii_of_nat 10) "") /\
  file_at "/data/server.signing.key" (snd (reconcile cs0 (snd (reconcile cs0 w_key_file_only)))) =
    Some "key".
Proof. split; [|split; [|split; [|split]]]; vm_compute; reflexivity. Qed.

(* ================================================================== *)
(** * Further properties of the charm *)

(** ** Helpers *)

Lemma dict_set_tail2 {V} (k : string) (v : V) (a b : string * V) (ws : Dict V) :
  fst a <> k -> fst b <> k -> dict_set k v (a :: b :: ws) = a :: b :: dict_set k v ws.
Proof.
  destruct a as [ka va], b as [kb vb]; cbn [fst]; intros Ha Hb.
  apply String.eqb_neq in Ha, Hb. cbn [dict_set]. now rewrite Ha, Hb.
Qed.

Lemma Forall_dict_set {V} (P : string * V -> Prop) (k : string) (v : V) (ws : Dict V) :
  P (k, v) -> Forall P ws -> Forall P (dict_set k v ws).
Proof.
  intros Hp. induction ws as [|[k' v'] ws IH]; intros Hf; cbn [dict_set].
  - constructor; auto.
  - inversion Hf as [|? ? H1 H2]; subst. destruct (String.eqb k' k); constructor; auto.
Qed.

Lemma add_workers_inv (m : string) (P : string * Host -> Prop) (a0 a1 : string * Host) :
  (forall n, fst a0 <> "worker" ++ n) -> (forall n, fst a1 <> "worker" ++ n) ->
  forall addrs ws d,
  (forall a n, In a addrs -> a <> m -> search_dash_digits a = Some n ->
               P ("worker" ++ n, mkHost a 8034%Z)) ->
  Forall P ws -> add_workers m addrs (a0 :: a1 :: ws) = Ok d ->
  exists ws', d = a0 :: a1 :: ws' /\ Forall P ws'.
Proof.
  intros H0 H1. induction addrs as [|a rest IH]; intros ws d Hp Hf E.
  - cbn [add_workers] in E. injection E as <-. eauto.
  - cbn [add_workers] in E. destruct (String.eqb_spec a m) as [->|Hne].
    + apply (IH ws d); auto. intros a' n Hin. apply Hp. now right.
    + destruct (search_dash_digits a) as [n|] eqn:Hs; [|discriminate].
      rewrite dict_set_tail2 in E by first [apply H0 | apply H1].
      eapply IH; [| |exact E].
      * intros a' n' Hin. apply Hp. now right.
      * apply Forall_dict_set; [apply Hp; auto; now left | exact Hf].
Qed.

Lemma search_dash_digits_app_l (a b : string) :
  search_dash_digits a = None ->
  match b with String c _ => is_digit c = false | EmptyString => True end ->
  search_dash_digits (a ++ b) = search_dash_digits b.
Proof.
  induction a as [|c r IH]; intros Ha Hb; [reflexivity|].
  simpl in Ha |- *.
  destruct (Ascii.eqb c "-") eqn:Ec.
  - destruct r as [|d r'].
    + destruct b as [|d' b']; [reflexivity|]. simpl. rewrite Hb. reflexivity.
    + destruct (is_digit d) eqn:Ed; [discriminate|]. simpl. rewrite Ed. apply IH; auto.
  - apply IH; auto.
Qed.

Lemma take_digits_dot (n r : string) : all_digits n = true -> take_digits (n ++ String "." r) = n.
Proof.
  induction n as [|c n IH]; simpl; intros H; [reflexivity|].
  apply andb_true_iff in H as [Hc Hn]. rewrite Hc. f_equal. exact (IH Hn).
Qed.

Lemma gsk_raise_leader (w : World) (e : Exn) :
  fst (get_signing_key w) = Raise e -> w_leader w = false.
Proof.
  unfold get_signing_key, bind, gets. cbv beta iota.
  destruct (w_peer w) as [p|] eqn:P; [|discriminate].
  destruct (dict_get SECRET_SIGNING_ID (pr_app_data p)) as [sid|]; [|discriminate].
  destruct (String.eqb sid ""); [discriminate|].
  destruct (dict_get sid (w_secrets w)); [discriminate|].
  unfold app_data_del. rewrite P. destruct (w_leader w); [discriminate|reflexivity].
Qed.

Lemma gsk_absent (w : World) :
  data_get SECRET_SIGNING_ID w = None -> get_signing_key w = (Ok None, w).
Proof.
  unfold get_signing_key, data_get, bind, gets. cbv beta iota. intros H.
  destruct (w_peer w); [rewrite H|]; reflexivity.
Qed.

(** A leader with the peer relation stores a new secret and publishes its id. *)
Lemma publish_secret (s : string) (y : World) :
  peer_exists y = true -> w_leader y = true ->
  let r := bind (add_secret s) (fun secret_id => app_data_set SECRET_SIGNING_ID secret_id) y in
  fst r = Ok tt /\ fst (get_signing_key (snd r)) = Ok (Some s) /\
  w_secrets (snd r) = ("secret:" ++ string_of_nat (w_next_secret y), Some s) :: w_secrets y /\
  stable (snd r) = stable y.
Proof.
  intros Hp L r. unfold r. unfold peer_exists in Hp.
  destruct (w_peer y) as [p|] eqn:P; [|discriminate].
  rewrite bind_eq. unfold add_secret. cbv beta iota zeta.
  set (id := "secret:" ++ string_of_nat (w_next_secret y)).
  assert (Hid : String.eqb id "" = false) by reflexivity. clearbody id.
  unfold app_data_set. cbn [w_peer w_leader emit with_secrets]. rewrite P, L, Hid. cbn [negb].
  split; [reflexivity|]. split; [|split; [reflexivity|]].
  - unfold get_signing_key, bind, gets.
    cbn [fst snd w_peer w_secrets emit with_peer with_secrets pr_app_data].
    rewrite dict_get_set_eq, Hid. cbv beta iota.
    cbn [w_secrets emit with_peer with_secrets dict_get]. rewrite String.eqb_refl. reflexivity.
  - unfold stable, peer_exists. cbn [fst snd w_unit w_app w_leader w_planned w_peer emit with_peer with_secrets].
    rewrite P. reflexivity.
Qed.

(** [set_signing_key] on a leader whose stored key differs from the new one. *)
Lemma set_signing_key_new (s : string) (y : World) (k : option string) :
  peer_exists y = true -> w_leader y = true -> get_signing_key y = (Ok k, y) ->
  str_eq_opt s k = false ->
  set_signing_key s y = bind (add_secret s) (fun secret_id => app_data_set SECRET_SIGNING_ID secret_id) y.
Proof.
  intros Hp L G N. unfold peer_exists in Hp. unfold set_signing_key.
  rewrite bind_eq. unfold gets. cbv beta iota.
  destruct (w_peer y); [|discriminate].
  rewrite bind_eq, G. rewrite N. rewrite bind_eq. cbv beta iota. rewrite L. reflexivity.
Qed.

Lemma set_signing_key_leader (s : string) (w : World) :
  peer_exists w = true -> w_leader w = true ->
  fst (set_signing_key s w) = Ok tt /\
  fst (get_signing_key (snd (set_signing_key s w))) = Ok (Some s) /\
  (w_secrets (snd (set_signing_key s w)) = w_secrets w \/
   exists id, w_secrets (snd (set_signing_key s w)) = (id, Some s) :: w_secrets w).
Proof.
  intros Hp L.
  assert (NR : forall e, fst (get_signing_key w) <> Raise e)
    by (intros e E; apply gsk_raise_leader in E; congruence).
  pose proof (secrets_get_signing_key w) as Sg. pose proof (stable_get_signing_key w) as Tg.
  destruct (get_signing_key w) as [[k|e] y] eqn:G; cbn [fst snd] in Sg, Tg.
  2: { exfalso. apply (NR e). reflexivity. }
  apply stable_fields in Tg as [_ [_ [Ly [_ Py]]]].
  pose proof (gsk_idem _ _ _ G) as Gy.
  destruct (str_eq_opt s k) eqn:Eq.
  - assert (E : set_signing_key s w = (Ok tt, y)).
    { unfold set_signing_key. rewrite bind_eq. unfold gets. cbv beta iota.
      unfold peer_exists in Hp. destruct (w_peer w); [|discriminate].
      rewrite bind_eq, G, Eq. reflexivity. }
    rewrite E. cbn [fst snd]. split; [reflexivity|]. split; [|left; exact Sg].
    rewrite Gy. unfold str_eq_opt in Eq. destruct k as [k|]; [|discriminate].
    apply String.eqb_eq in Eq. now subst.
  - assert (E : set_signing_key s w = bind (add_secret s) (fun secret_id => app_data_set SECRET_SIGNING_ID secret_id) y).
    { unfold set_signing_key. rewrite bind_eq. unfold gets. cbv beta iota.
      unfold peer_exists in Hp. destruct (w_peer w); [|discriminate].
      rewrite bind_eq, G, Eq. rewrite bind_eq. cbv beta iota. rewrite Ly, L. reflexivity. }
    rewrite E. rewrite <- Py in Hp. rewrite <- Ly in L.
    destruct (publish_secret s y Hp L) as [P1 [P2 [P3 _]]].
    split; [exact P1|]. split; [exact P2|]. right. eexists. rewrite P3, Sg. reflexivity.
Qed.

Lemma existsb_negb_forallb (l : list bool) : existsb negb l = negb (forallb (fun b => b) l).
Proof. induction l as [|b l IH]; simpl; [reflexivity | rewrite IH; destruct b; reflexivity]. Qed.

Lemma set_unit_status_ok (w : World) : fst (set_unit_status w) = Ok tt.
Proof.
  unfold set_unit_status, bind, gets. cbv beta iota.
  destruct (w_status w); try reflexivity;
  repeat match goal with |- context [if ?b then _ else _] => destruct b end; reflexivity.
Qed.

Lemma container_body_truthy (cs : CharmState) (k : option string) (y : World) :
  truthy k = true ->
  w_container (snd (reconcile_body_after_key cs k y)) =
  w_container (snd (push_signing_key (signing_key_path cs) k y)).
Proof.
  intros Hk. unfold reconcile_body_after_key. cbv zeta. rewrite Hk.
  apply bind_tail_preserves. intros _.
  apply preserves_bind; [pres|intros ?; cbv beta].
  apply preserves_bind; [pres|intros ?; cbv beta].
  apply preserves_bind; [pres|intros ?; cbv beta].
  apply preserves_bind; [pres|intros im2; cbv beta].
  apply preserves_bind; [|intros ?; cbv beta; pres].
  change (negb true) with false. rewrite andb_false_r. apply preserves_ret.
Qed.

Lemma flags_reconcile (cs : CharmState) (w : World) : flags (snd (reconcile cs w)) = flags w.
Proof.
  unfold reconcile. rewrite bind_tail_preserves by (intros; apply flags_reconcile_workload).
  unfold flags. now rewrite container_bootstrap_main.
Qed.

(** ** Instance map *)


(** Every map [instance_map] returns starts with the [main] and
    [federationsender1] entries on the main address; each further entry
    is [worker<n>] on port 8034 for a peer address other than the main
    address, [n] being the number the address carries after a hyphen. *)
Theorem instance_map_entries (w : World) (d : Dict Host) :
  instance_map w = Ok (Some d) ->
  let m := get_main_unit_address w in
  w_planned w <> 1 /\
  exists ws, d = ("main", mkHost m 8035%Z) :: ("federationsender1", mkHost m 8034%Z) :: ws /\
    Forall (fun e => exists n, fst e = "worker" ++ n /\ search_dash_digits (host (snd e)) = Some n /\
                               port (snd e) = 8034%Z /\ In (host (snd e)) (peer_addresses w) /\
                               host (snd e) <> m) ws.
Proof.
  intros E m. unfold instance_map in E. cbv zeta in E.
  destruct (Nat.eqb_spec (w_planned w) 1) as [H1|H1]; [discriminate|]. split; [exact H1|].
  destruct (add_workers (get_main_unit_address w) (peer_addresses w) _) as [d'|e] eqn:A;
    [|discriminate].
  injection E as <-.
  eapply add_workers_inv; [| | | constructor | exact A].
  - intros n H. discriminate H.
  - intros n H. discriminate H.
  - intros a n Hin Hne Hs. exists n. cbn [fst snd host port]. repeat split; auto.
Qed.

(** [instance_map_shape] on a two-unit application. *)
Lemma instance_map_shape_witness :
  instance_map w_key_file_only =
    Ok (Some (("main", mkHost (get_main_unit_address w_key_file_only) 8035%Z)
              :: ("federationsender1", mkHost (get_main_unit_address w_key_file_only) 8034%Z)
              :: worker_entries (get_main_unit_address w_key_file_only) (peer_addresses w_key_file_only))).
Proof.
  refine (proj1 (instance_map_shape w_key_file_only _ _ _)).
  - discriminate.
  - intros a Ha Hne. vm_compute in Ha. destruct Ha as [<-|[<-|[]]]; vm_compute; discriminate.
  - vm_compute. repeat constructor; simpl; tauto.
Defined.

Lemma instance_map_entries_witness :
  w_planned w_key_file_only <> 1.
Proof.
  refine (proj1 (instance_map_entries w_key_file_only
            [("main", mkHost "synapse-0.synapse-endpoints" 8035%Z);
             ("federationsender1", mkHost "synapse-0.synapse-endpoints" 8034%Z);
             ("worker1", mkHost "synapse-1.synapse-endpoints" 8034%Z)] _)).
  vm_compute. reflexivity.
Defined.

(** For a unit [app/n] of an application whose name has no [/], no [.]
    and no hyphen followed by a digit, the worker number [instance_map]
    reads off the unit's address is the unit number [get_unit_number]
    gives. *)
Theorem worker_id_is_unit_number (self_name app n : string) :
  has_char "/" app = false -> has_char "." app = false -> search_dash_digits app = None ->
  all_digits n = true -> n <> "" ->
  search_dash_digits (unit_address (app ++ String "/" n) app) =
    Some (get_unit_number self_name (app ++ String "/" n)).
Proof.
  intros Hs Hd Hsd Hn Hne. rewrite get_unit_number_slash by assumption.
  unfold unit_address. rewrite replace_char_app, (replace_char_nochar _ _ app) by exact Hs.
  simpl replace_char.
  rewrite (replace_char_nochar _ _ n) by (apply all_digits_nochar; [reflexivity | exact Hn]).
  rewrite str_app_assoc. rewrite search_dash_digits_app_l; [| exact Hsd | reflexivity].
  destruct n as [|c n']; [congruence|]. simpl in Hn. apply andb_true_iff in Hn as [Hc Hn'].
  simpl. rewrite Hc. f_equal. f_equal. apply take_digits_dot. exact Hn'.
Qed.

Lemma worker_id_is_unit_number_witness :
  search_dash_digits (unit_address "synapse/3" "synapse") = Some (get_unit_number "synapse/0" "synapse/3").
Proof.
  exact (worker_id_is_unit_number "synapse/0" "synapse" "3"
           eq_refl eq_refl eq_refl eq_refl ltac:(discriminate)).
Defined.

(** ** Main unit and signing key in the peer data *)

(** [set_main_unit] does nothing without the peer relation, raises
    [RelationDataAccessError] on a unit that is not the leader and
    otherwise records the given name (an empty name clears the record),
    leaving the signing-key reference as it was. *)
Theorem set_main_unit_cases (u : string) (w : World) :
  (w_peer w = None -> set_main_unit u w = (Ok tt, w)) /\
  (peer_exists w = true -> w_leader w = false ->
     set_main_unit u w = (Raise RelationDataAccessError, w)) /\
  (peer_exists w = true -> w_leader w = true ->
     fst (set_main_unit u w) = Ok tt /\
     main_of (snd (set_main_unit u w)) = (if String.eqb u "" then None else Some u) /\
     data_get SECRET_SIGNING_ID (snd (set_main_unit u w)) = data_get SECRET_SIGNING_ID w).
Proof.
  unfold set_main_unit, peer_exists, bind, gets. cbv beta iota.
  destruct (w_peer w) as [p|] eqn:P.
  - split; [discriminate|]. unfold app_data_set. rewrite P. split.
    + intros _ L. rewrite L. reflexivity.
    + intros _ L. rewrite L. cbn [negb fst snd]. split; [reflexivity|].
      unfold main_of, data_get. cbn [w_peer emit with_peer pr_app_data]. rewrite P.
      pose proof MAIN_UNIT_ID_ne_SECRET as Hne.
      destruct (String.eqb u "").
      * rewrite dict_get_del_eq, dict_get_del_ne by congruence. split; reflexivity.
      * rewrite dict_get_set_eq, dict_get_set_ne by congruence. split; reflexivity.
  - split; [reflexivity|]. split; discriminate.
Qed.

(** [get_signing_key] never changes the secrets; what it returns it
    returns again when called on the state it leaves; it can only raise
    [RelationDataAccessError], on a unit that is not the leader, and then
    leaves the state unchanged. *)
Theorem get_signing_key_props (w : World) :
  w_secrets (snd (get_signing_key w)) = w_secrets w /\
  (forall k w', get_signing_key w = (Ok k, w') -> get_signing_key w' = (Ok k, w')) /\
  (forall e w', get_signing_key w = (Raise e, w') ->
     e = RelationDataAccessError /\ w_leader w = false /\ w' = w).
Proof.
  split; [apply secrets_get_signing_key|]. split; [apply gsk_idem|].
  intros e w' E. pose proof (gsk_raise_leader w e ltac:(now rewrite E)) as L.
  destruct (gsk_raise _ _ _ E) as [-> ->]. auto.
Qed.

(** On a leader with the peer relation, [set_signing_key s] succeeds and
    afterwards [get_signing_key] returns [s]; the secrets are unchanged
    or have exactly one new secret holding [s]. *)
Theorem set_signing_key_leader_roundtrip (s : string) (w : World) :
  peer_exists w = true -> w_leader w = true ->
  fst (set_signing_key s w) = Ok tt /\
  fst (get_signing_key (snd (set_signing_key s w))) = Ok (Some s) /\
  (w_secrets (snd (set_signing_key s w)) = w_secrets w \/
   exists id, w_secrets (snd (set_signing_key s w)) = (id, Some s) :: w_secrets w).
Proof. exact (set_signing_key_leader s w). Qed.

Lemma set_signing_key_leader_roundtrip_witness :
  fst (get_signing_key (snd (set_signing_key "key" w_key_file_only))) = Ok (Some "key").
Proof. exact (proj1 (proj2 (set_signing_key_leader_roundtrip "key" w_key_file_only eq_refl eq_refl))). Defined.

(** On a unit that is not the leader, when the stored reference (if any)
    names an existing secret, [set_signing_key] changes nothing. *)
Theorem set_signing_key_follower_noop (s : string) (w : World) :
  w_leader w = false -> gsk_clean w = true -> set_signing_key s w = (Ok tt, w).
Proof.
  intros L C. destruct (gsk_clean_noop w C) as [k G].
  unfold set_signing_key. rewrite bind_eq. unfold gets. cbv beta iota.
  destruct (w_peer w); [|reflexivity]. rewrite bind_eq, G. cbv beta iota.
  destruct (str_eq_opt s k); [reflexivity|]. rewrite bind_eq. cbv beta iota. rewrite L. reflexivity.
Qed.

Lemma set_signing_key_follower_noop_witness :
  set_signing_key "key" w_follower = (Ok tt, w_follower).
Proof. exact (set_signing_key_follower_noop "key" w_follower eq_refl eq_refl). Defined.

(** ** Unit status *)

(** On a unit that is not blocked, [_set_unit_status] sets [Active]
    exactly when the workload is reachable and both the synapse and the
    nginx services exist and are all running. *)
Theorem set_unit_status_active (w : World) :
  (forall m, w_status w <> Blocked m) ->
  (w_status (snd (set_unit_status w)) = Active <->
   c_can_connect (w_container w) = true /\
   c_synapse (w_container w) <> [] /\ forallb (fun b => b) (c_synapse (w_container w)) = true /\
   c_nginx (w_container w) <> [] /\ forallb (fun b => b) (c_nginx (w_container w)) = true).
Proof.
  intros H. rewrite (set_unit_status_eq w H).
  change (w_status (snd (set_status (unit_status_of (w_container w)) w)))
    with (unit_status_of (w_container w)).
  unfold unit_status_of, any_not_running. rewrite !existsb_negb_forallb.
  destruct (w_container w) as [cc fs sy ng ae]; cbn [c_can_connect c_synapse c_nginx].
  destruct cc; cbn [negb]; [|split; [discriminate | intros [? _]; discriminate]].
  destruct sy as [|b1 sy]; cbn [orb].
  - split; [discriminate | intros [_ [? _]]; congruence].
  - destruct (forallb (fun b => b) (b1 :: sy)); cbn [negb orb].
    2: { split; [discriminate | intros [_ [_ [? _]]]; discriminate]. }
    destruct ng as [|b2 ng]; cbn [orb].
    + split; [discriminate | intros [_ [_ [_ [? _]]]]; congruence].
    + destruct (forallb (fun b => b) (b2 :: ng)); cbn [negb orb].
      * split; [intros _ | reflexivity]. repeat split; auto; discriminate.
      * split; [discriminate | intros [_ [_ [_ [_ ?]]]]; discriminate].
Qed.

Lemma set_unit_status_active_witness :
  w_status (snd (set_unit_status w_key_file_only)) = Active.
Proof.
  apply (proj2 (set_unit_status_active w_key_file_only ltac:(intros m; discriminate))).
  vm_compute. repeat split; discriminate.
Defined.

(** ** [reconcile] and the event handlers *)




(** After [reconcile] (on a unit with a name) the recorded main unit is
    the one recorded before; when none was, a leader with the peer
    relation has recorded itself. *)
Theorem reconcile_main_designation (cs : CharmState) (w : World) :
  w_unit w <> "" ->
  main_of (snd (reconcile cs w)) =
    match main_of w with
    | Some m => Some m
    | None => if w_leader w && peer_exists w then Some (w_unit w) else None
    end.
Proof. intros Hu. exact (reconcile_main cs w Hu). Qed.

Lemma reconcile_main_designation_witness :
  main_of (snd (reconcile cs0 w_no_main_leader)) = Some (w_unit w_no_main_leader).
Proof. exact (reconcile_main_designation cs0 w_no_main_leader ltac:(discriminate)). Defined.





(** When the published reference names an existing secret holding a
    non-empty key and the workload is reachable, [reconcile] leaves that
    key in the workload's signing-key file, whatever else happens in
    the run. *)
Theorem reconcile_pushes_published_key (cs : CharmState) (w : World) (sid k : string) :
  c_can_connect (w_container w) = true ->
  data_get SECRET_SIGNING_ID w = Some sid -> sid <> "" ->
  dict_get sid (w_secrets w) = Some (Some k) -> k <> "" ->
  file_at (signing_key_path cs) (snd (reconcile cs w)) = Some k.
Proof.
  intros Hc H1 H2 H3 H4. pose proof (gsk_resolved w sid k H1 H2 H3) as G.
  assert (Tk : truthy (Some k) = true)
    by (unfold truthy; apply negb_true_iff, String.eqb_neq, H4).
  pose proof (gsk_ok_clean _ _ _ G) as C.
  unfold reconcile. rewrite (bind_ok _ _ _ _ _ (bootstrap_main_ok w)). cbv beta.
  set (wb := snd (bootstrap_main w)).
  assert (Sb : sig_in wb = sig_in w) by apply sig_bootstrap_main.
  assert (Gb : get_signing_key wb = (Ok (Some k), wb)).
  { apply (gsk_same w); [rewrite (gsk_clean_dep _ _ Sb); exact C | exact Sb | now rewrite G]. }
  assert (Hcb : c_can_connect (w_container wb) = true)
    by (unfold wb; now rewrite container_bootstrap_main).
  clearbody wb.
  unfold reconcile_workload. rewrite bind_eq. unfold gets. cbv beta iota. rewrite Hcb. cbn [negb].
  rewrite bind_eq. set (x0 := snd (set_status (Maintenance "Configuring Synapse") wb)).
  change (set_status (Maintenance "Configuring Synapse") wb) with (Ok tt, x0). cbv beta iota.
  assert (G0 : get_signing_key x0 = (Ok (Some k), x0)).
  { apply (gsk_same wb); [rewrite (gsk_clean_dep x0 wb eq_refl); exact (gsk_ok_clean _ _ _ Gb)
                         | reflexivity | now rewrite Gb]. }
  clearbody x0.
  rewrite bind_eq. unfold try_apply_errors, reconcile_body. rewrite bind_eq, G0.
  pose proof (container_body_truthy cs (Some k) x0 Tk) as Cb.
  assert (Fp : dict_get (signing_key_path cs)
                 (c_files (w_container (snd (push_signing_key (signing_key_path cs) (Some k) x0))))
               = Some k).
  { unfold push_signing_key. rewrite Tk. unfold push, modify.
    cbn [snd w_container emit with_container c_files]. apply dict_get_set_eq. }
  destruct (reconcile_body_after_key cs (Some k) x0) as [[[]|e] y2] eqn:E2; cbn [snd] in Cb.
  - rewrite !bind_eq. unfold gets, restart_nginx, modify. cbv beta iota.
    unfold file_at. rewrite container_set_unit_status. cbn [w_container emit]. rewrite Cb. exact Fp.
  - destruct e; cbv beta iota; cbn [snd]; unfold file_at;
      try (rewrite container_set_status); rewrite Cb; exact Fp.
Qed.

Lemma reconcile_pushes_published_key_witness :
  file_at (signing_key_path cs0) (snd (reconcile cs0 w_key_published)) = Some "key".
Proof.
  apply (reconcile_pushes_published_key cs0 w_key_published "secret:0" "key");
    first [reflexivity | discriminate].
Defined.


